(** * Role resolution of the railway backend: a shallow embedding

    The development follows the Express application of the repository:
    the authentication middleware, the role guards and the handlers of
    /api/check-roles, /api/check-supplier, /api/check-admin,
    /api/user/update and /api/admin/users.  The first version of the
    application (server.js) is embedded in [Module ServerJs], the extended
    one in [Module Api], and the seeding of the small companion server in
    [Module Basic].

    The identity provider and the realtime database are external: a
    handler is a computation over an environment [Env] that answers each
    awaited call, and that records the calls it issues. *)

From Stdlib Require Import String List Bool Arith ZArith Lia Ascii.
From Stdlib Require Import DecimalString Permutation.
Import ListNotations.
Open Scope string_scope.

Set Warnings "-register-all".

(** ** JavaScript values *)

(** What [snapshot.val()] can hold below the root: the database stores
    booleans, numbers, strings and objects, never null or undefined (a
    null child is an absent child).  The children of an object are listed
    in the order in which [for ... in] enumerates them. *)
Inductive data : Type :=
| DBool (b : bool)
| DNum (n : Z)
| DStr (s : string)
| DObj (children : list (string * data)).

(** Values placed in a request or response body. *)
Inductive value : Type :=
| VUndefined
| VNull
| VBool (b : bool)
| VNum (n : Z)
| VStr (s : string)
| VArr (items : list value)
| VObj (props : list (string * value)).

Fixpoint of_data (d : data) : value :=
  match d with
  | DBool b => VBool b
  | DNum n => VNum n
  | DStr s => VStr s
  | DObj children =>
      VObj (map (fun kv : string * data => let (k, c) := kv in (k, of_data c))
                children)
  end.

(** A property read that yields undefined or a stored value. *)
Definition of_field (f : option data) : value :=
  match f with
  | None => VUndefined
  | Some d => of_data d
  end.

(** [string | undefined], as [user.email] and [user.displayName] are. *)
Definition of_opt_string (s : option string) : value :=
  match s with
  | None => VUndefined
  | Some x => VStr x
  end.

(** [string | null], as the last sign-in time of a user who never signed
    in is. *)
Definition of_nullable_string (s : option string) : value :=
  match s with
  | None => VNull
  | Some x => VStr x
  end.

(** [snapshot.val()] at the root of a reference: null when nothing is
    stored there. *)
Definition snapshot := option data.

Fixpoint assoc {A : Type} (k : string) (l : list (string * A)) : option A :=
  match l with
  | [] => None
  | (k', a) :: rest => if String.eqb k' k then Some a else assoc k rest
  end.

(** [record.name] for one of the names the handlers read (email, id, name,
    departement, telephone, address): an own property of an object,
    undefined on a primitive. *)
Definition field (d : data) (name : string) : option data :=
  match d with
  | DObj children => assoc name children
  | _ => None
  end.

(** [body[key]] on a parsed request body; undefined when the key is not an
    own property (and on an array or a primitive, for a key that is not an
    index). *)
Definition prop (v : value) (key : string) : value :=
  match v with
  | VObj props =>
      match assoc key props with
      | Some x => x
      | None => VUndefined
      end
  | _ => VUndefined
  end.

Definition is_undefined (v : value) : bool :=
  match v with
  | VUndefined => true
  | _ => false
  end.

(** [if (v)] on a snapshot value. *)
Definition truthy (v : snapshot) : bool :=
  match v with
  | None => false
  | Some (DBool b) => b
  | Some (DNum n) => negb (Z.eqb n 0)
  | Some (DStr s) => negb (String.eqb s "")
  | Some (DObj _) => true
  end.

(** [x === y] where [x] is a property read from a stored record and [y] a
    string or undefined: true for two undefined and for two equal strings.
    No conversion, no trimming, no case folding. *)
Definition strict_eq (x : option data) (y : option string) : bool :=
  match x, y with
  | None, None => true
  | Some (DStr a), Some b => String.eqb a b
  | _, _ => false
  end.

Definition index_key (i : nat) : string :=
  NilEmpty.string_of_uint (Nat.to_uint i).

Fixpoint char_entries (i : nat) (s : string) : list (string * data) :=
  match s with
  | EmptyString => []
  | String c rest =>
      (index_key i, DStr (String c EmptyString)) :: char_entries (S i) rest
  end.

(** [for (const key in v)] paired with [v[key]]: the children of an
    object, the indexed characters of a string, nothing for a boolean or a
    number. *)
Definition for_in (d : data) : list (string * data) :=
  match d with
  | DObj children => children
  | DStr s => char_entries 0 s
  | _ => []
  end.

(** ** Strings: [startsWith] and [split] *)

(** [s.split(sep)] for a separator of one character or more.  [skip] counts
    the characters of a separator still to be passed over, [cur] is the
    piece being read. *)
Fixpoint split_go (sep : string) (skip : nat) (cur s : string) : list string :=
  match s with
  | EmptyString => [cur]
  | String c rest =>
      match skip with
      | S k => split_go sep k cur rest
      | O =>
          if String.prefix sep s
          then cur :: split_go sep (String.length sep - 1) "" rest
          else split_go sep 0 (cur ++ String c EmptyString) rest
      end
  end.

Definition split_on (sep s : string) : list string := split_go sep 0 "" s.

(** ** Errors, calls and the handler monad *)

(** A thrown [Error]: its [code] (Firebase errors carry one) and its
    [message]. *)
Record error : Type := Error { code : option string; message : string }.

Record Metadata : Type := {
  creationTime : string;
  lastSignInTime : option string
}.

(** The user record of the identity provider; [req.user] copies it field
    by field. *)
Record UserRecord : Type := {
  uid : string;
  email : option string;
  emailVerified : bool;
  displayName : option string;
  phoneNumber : option string;
  photoURL : option string;
  disabled : bool;
  metadata : Metadata;
  providerData : value
}.

Record DecodedToken : Type := {
  token_uid : string;
  token_email : option string
}.

(** The answers of the external services to every awaited call; [inl] is a
    rejected promise (or a thrown error). *)
Record Env : Type := {
  verifyIdToken : option string -> error + DecodedToken;
  getUser : string -> error + UserRecord;
  once_value : string -> error + snapshot;
  equalTo_once : string -> string -> option string -> error + snapshot;
  updateUser : string -> list (string * value) -> error + unit;
  listUsers : nat -> error + list UserRecord;
  now : string
}.

Inductive call : Type :=
| CVerifyIdToken (token : option string)
| CGetUser (u : string)
| COnce (path : string)
| CEqualTo (path child : string) (v : option string)
| CUpdateUser (u : string) (updates : list (string * value))
| CListUsers (maxResults : nat).

(** A computation reads the environment, extends the log of the calls it
    issued and either throws or returns. *)
Definition M (A : Type) : Type := Env -> list call -> list call * (error + A).

Definition ret {A : Type} (a : A) : M A := fun _ log => (log, inr a).

Definition throw {A : Type} (e : error) : M A := fun _ log => (log, inl e).

Definition bind {A B : Type} (m : M A) (k : A -> M B) : M B :=
  fun env log =>
    match m env log with
    | (log', inl e) => (log', inl e)
    | (log', inr a) => k a env log'
    end.

(** [try { m } catch (error) { h error }] *)
Definition try_catch {A : Type} (m : M A) (h : error -> M A) : M A :=
  fun env log =>
    match m env log with
    | (log', inl e) => h e env log'
    | (log', inr a) => (log', inr a)
    end.

(** An awaited call: logged, then answered by the environment. *)
Definition await {A : Type} (c : call) (answer : Env -> error + A) : M A :=
  fun env log => ((log ++ [c])%list, answer env).

Definition timestamp : M value := fun env log => (log, inr (VStr (now env))).

Declare Scope handler_scope.
Delimit Scope handler_scope with handler.
Notation "x <- m ;; k" := (bind m (fun x => k))
  (at level 100, m at next level, right associativity) : handler_scope.
Notation "'try' m 'catch' e => h" := (try_catch m (fun e => h))
  (at level 100, m at level 200, e name, h at level 200) : handler_scope.
Open Scope handler_scope.

Definition run {A : Type} (m : M A) (env : Env) : list call * (error + A) :=
  m env [].

(** ** Requests and responses *)

Record Request : Type := {
  authorization : option string;
  req_body : value
}.

Record Response : Type := {
  status : nat;
  body : value
}.

(** [res.json(b)] and [res.status(s).json(b)] *)
Definition json (b : value) : Response := {| status := 200; body := b |}.
Definition status_json (s : nat) (b : value) : Response :=
  {| status := s; body := b |}.

(** A middleware either answers the request or calls [next()] with the
    request context it has built. *)
Inductive outcome (A : Type) : Type :=
| Respond (r : Response)
| Next (ctx : A).
Arguments Respond {A} r.
Arguments Next {A} ctx.

Definition starts_with (s pre : string) : bool := String.prefix pre s.

(** [!authHeader || !authHeader.startsWith('Bearer ')] *)
Definition no_bearer (authHeader : option string) : bool :=
  match authHeader with
  | None => true
  | Some h => String.eqb h "" || negb (starts_with h "Bearer ")
  end.

(** [authHeader.split('Bearer ')[1]] *)
Definition bearer_token (authHeader : option string) : option string :=
  match authHeader with
  | None => None
  | Some h => nth_error (split_on "Bearer " h) 1
  end.

(** [error.code === c] *)
Definition code_is (e : error) (c : string) : bool :=
  match code e with
  | Some c' => String.eqb c' c
  | None => false
  end.

Definition of_bool (b : bool) : value := VBool b.

(** [adminData !== null] *)
Definition not_null (v : snapshot) : bool :=
  match v with
  | None => false
  | Some _ => true
  end.

(** ** The supplier scan

    [for (const supplierId in suppliers)] with the test
    [supplier.email === user.email || supplier.id === user.uid], the two
    variables [isSupplier] and [supplierData] and the [break] on the first
    hit.  The handlers differ only in the object they keep of the record
    found. *)
Section SupplierScan.

Variable user_email : option string.
Variable user_uid : string.

Definition email_matches (supplier : data) : bool :=
  strict_eq (field supplier "email") user_email.

Definition id_matches (supplier : data) : bool :=
  strict_eq (field supplier "id") (Some user_uid).

Definition supplier_matches (supplier : data) : bool :=
  email_matches supplier || id_matches supplier.

Variable keep : string -> data -> value.

Fixpoint scan (entries : list (string * data))
    (isSupplier : bool) (supplierData : value) : bool * value :=
  match entries with
  | [] => (isSupplier, supplierData)
  | (supplierId, supplier) :: rest =>
      if supplier_matches supplier
      then (true, keep supplierId supplier)
      else scan rest isSupplier supplierData
  end.

(** [if (suppliers) { for ... }] from [isSupplier = false] and
    [supplierData = null]. *)
Definition scan_suppliers (suppliers : snapshot) : bool * value :=
  match suppliers with
  | Some d => if truthy suppliers then scan (for_in d) false VNull
              else (false, VNull)
  | None => (false, VNull)
  end.

End SupplierScan.

(** ** server.js *)
Module ServerJs.

Definition internal_error : Response :=
  status_json 500 (VObj [("error", VStr "Erreur interne du serveur")]).

Definition authenticateUser (req : Request) : M (outcome DecodedToken) :=
  try
    (let authHeader := authorization req in
     if no_bearer authHeader
     then ret (Respond (status_json 401 (VObj [("error", VStr "Non autorisé")])))
     else
       let token := bearer_token authHeader in
       decodedToken <- await (CVerifyIdToken token)
                             (fun env => verifyIdToken env token) ;;
       ret (Next {| token_uid := token_uid decodedToken;
                    token_email := token_email decodedToken |}))
  catch error =>
    ret (Respond (status_json 401 (VObj [("error", VStr "Token invalide")]))).

(** The loop of this version sets [isSupplier] only. *)
Definition is_supplier (user : DecodedToken) (suppliers : data) : bool :=
  fst (scan (token_email user) (token_uid user)
            (fun _ _ => VUndefined) (for_in suppliers) false VUndefined).

Definition check_supplier (user : DecodedToken) : M Response :=
  try
    (suppliers <- await (COnce "fournisseur")
                        (fun env => once_value env "fournisseur") ;;
     match suppliers with
     | Some d =>
         if truthy suppliers
         then ret (json (VObj [("isSupplier", of_bool (is_supplier user d))]))
         else ret (json (VObj [("isSupplier", VBool false)]))
     | None => ret (json (VObj [("isSupplier", VBool false)]))
     end)
  catch error => ret internal_error.

Definition check_admin (user : DecodedToken) : M Response :=
  try
    (adminData <- await (CEqualTo "admin" "email" (token_email user))
                        (fun env => equalTo_once env "admin" "email"
                                                 (token_email user)) ;;
     let isAdmin := not_null adminData in
     ret (json (VObj [("isAdmin", of_bool isAdmin)])))
  catch error => ret internal_error.

Definition check_roles (user : DecodedToken) : M Response :=
  try
    (suppliers <- await (COnce "fournisseur")
                        (fun env => once_value env "fournisseur") ;;
     let isSupplier :=
       match suppliers with
       | Some d => if truthy suppliers then is_supplier user d else false
       | None => false
       end in
     adminData <- await (CEqualTo "admin" "email" (token_email user))
                        (fun env => equalTo_once env "admin" "email"
                                                 (token_email user)) ;;
     let isAdmin := not_null adminData in
     ret (json (VObj [("isSupplier", of_bool isSupplier);
                      ("isAdmin", of_bool isAdmin);
                      ("user", VObj [("uid", VStr (token_uid user));
                                     ("email", of_opt_string (token_email user))])])))
  catch error => ret internal_error.

(** A route: the middleware, then the handler when [next()] is called. *)
Definition route (handler : DecodedToken -> M Response) (req : Request)
  : M Response :=
  o <- authenticateUser req ;;
  match o with
  | Respond r => ret r
  | Next user => handler user
  end.

End ServerJs.

(** ** The extended application *)
Module Api.

(** The catch block of the handlers:
    [res.status(500).json({ error, message: error.message })]. *)
Definition internal_error (e : error) : Response :=
  status_json 500 (VObj [("error", VStr "Erreur interne du serveur");
                         ("message", VStr (message e))]).

(** The catch block of [authenticateFirebaseUser]. *)
Definition auth_failure (e : error) : Response :=
  let statusCode := 401 in
  let errorMessage := "Token invalide ou expiré" in
  let '(statusCode, errorMessage) :=
    if code_is e "auth/id-token-expired"
    then (statusCode, "Token expiré, veuillez vous reconnecter")
    else if code_is e "auth/id-token-revoked"
    then (statusCode, "Token révoqué")
    else if code_is e "auth/user-not-found"
    then (404, "Utilisateur non trouvé")
    else (statusCode, errorMessage) in
  status_json statusCode
    (VObj [("error", VStr "Authentification échouée");
           ("message", VStr errorMessage);
           ("code", of_opt_string (code e))]).

Definition authenticateFirebaseUser (req : Request) : M (outcome UserRecord) :=
  try
    (let authHeader := authorization req in
     if no_bearer authHeader
     then ret (Respond (status_json 401
                 (VObj [("error", VStr "Non autorisé");
                        ("message", VStr "Token d'authentification manquant")])))
     else
       let token := bearer_token authHeader in
       decodedToken <- await (CVerifyIdToken token)
                             (fun env => verifyIdToken env token) ;;
       user <- await (CGetUser (token_uid decodedToken))
                     (fun env => getUser env (token_uid decodedToken)) ;;
       ret (Next {| uid := uid user;
                    email := email user;
                    emailVerified := emailVerified user;
                    displayName := displayName user;
                    phoneNumber := phoneNumber user;
                    photoURL := photoURL user;
                    disabled := disabled user;
                    metadata := metadata user;
                    providerData := providerData user |}))
  catch error => ret (Respond (auth_failure error)).

(** [req.user] once a guard has run: the user and the flags the guards
    set on it. *)
Record Ctx : Type := {
  ctx_user : UserRecord;
  ctx_isAdmin : bool;
  ctx_isSupplier : bool;
  ctx_supplierData : value
}.

Definition requireAdmin (req_user : option UserRecord) : M (outcome Ctx) :=
  try
    (match req_user with
     | None =>
         ret (Respond (status_json 401
                (VObj [("error", VStr "Utilisateur non authentifié")])))
     | Some user =>
         adminData <- await (CEqualTo "admin" "email" (email user))
                            (fun env => equalTo_once env "admin" "email"
                                                     (email user)) ;;
         if negb (truthy adminData)
         then ret (Respond (status_json 403
                (VObj [("error", VStr "Accès refusé");
                       ("message",
                        VStr "Vous n'avez pas les permissions d'administrateur")])))
         else ret (Next {| ctx_user := user; ctx_isAdmin := true;
                           ctx_isSupplier := false;
                           ctx_supplierData := VUndefined |})
     end)
  catch error =>
    ret (Respond (status_json 500
           (VObj [("error", VStr "Erreur interne du serveur")]))).

(** [{ id: supplierId, name: supplier.name, departement: ...,
      telephone: ..., address: ... }] of /api/check-roles. *)
Definition roles_supplierData (supplierId : string) (supplier : data) : value :=
  VObj [("id", VStr supplierId);
        ("name", of_field (field supplier "name"));
        ("departement", of_field (field supplier "departement"));
        ("telephone", of_field (field supplier "telephone"));
        ("address", of_field (field supplier "address"))].

(** [{ id: supplierId, name: supplier.name, departement:
      supplier.departement }] of /api/check-supplier. *)
Definition supplierData_of (supplierId : string) (supplier : data) : value :=
  VObj [("id", VStr supplierId);
        ("name", of_field (field supplier "name"));
        ("departement", of_field (field supplier "departement"))].

Definition check_roles (user : UserRecord) : M Response :=
  try
    (suppliers <- await (COnce "fournisseur")
                        (fun env => once_value env "fournisseur") ;;
     let '(isSupplier, supplierData) :=
       scan_suppliers (email user) (uid user) roles_supplierData suppliers in
     adminData <- await (CEqualTo "admin" "email" (email user))
                        (fun env => equalTo_once env "admin" "email"
                                                 (email user)) ;;
     let isAdmin := not_null adminData in
     ts <- timestamp ;;
     let response :=
       VObj [("user", VObj [("uid", VStr (uid user));
                            ("email", of_opt_string (email user));
                            ("emailVerified", VBool (emailVerified user));
                            ("displayName", of_opt_string (displayName user))]);
             ("roles", VObj [("isSupplier", of_bool isSupplier);
                             ("isAdmin", of_bool isAdmin);
                             ("isAuthenticated", VBool true)]);
             ("supplier", supplierData);
             ("timestamp", ts)] in
     ret (json response))
  catch error => ret (internal_error error).

Definition check_supplier (user : UserRecord) : M Response :=
  try
    (suppliers <- await (COnce "fournisseur")
                        (fun env => once_value env "fournisseur") ;;
     let '(isSupplier, supplierData) :=
       scan_suppliers (email user) (uid user) supplierData_of suppliers in
     ts <- timestamp ;;
     let response :=
       VObj [("isSupplier", of_bool isSupplier);
             ("supplier", supplierData);
             ("user", VObj [("uid", VStr (uid user));
                            ("email", of_opt_string (email user))]);
             ("timestamp", ts)] in
     ret (json response))
  catch error => ret (internal_error error).

(** [Object.values(adminData)[0]] *)
Definition first_value (d : data) : value :=
  match for_in d with
  | [] => VUndefined
  | (_, v) :: _ => of_data v
  end.

Definition check_admin (user : UserRecord) : M Response :=
  try
    (adminData <- await (CEqualTo "admin" "email" (email user))
                        (fun env => equalTo_once env "admin" "email"
                                                 (email user)) ;;
     let isAdmin := not_null adminData in
     let adminInfo :=
       match adminData with
       | Some d => first_value d
       | None => VNull
       end in
     ts <- timestamp ;;
     let response :=
       VObj [("isAdmin", of_bool isAdmin);
             ("admin", adminInfo);
             ("user", VObj [("uid", VStr (uid user));
                            ("email", of_opt_string (email user))]);
             ("timestamp", ts)] in
     ret (json response))
  catch error => ret (internal_error error).

Definition allowedUpdates : list string := ["displayName"; "photoURL"].

(** [obj[key] = v] on an object whose properties are listed in creation
    order. *)
Fixpoint set_prop (obj : list (string * value)) (key : string) (v : value)
  : list (string * value) :=
  match obj with
  | [] => [(key, v)]
  | (k, x) :: rest =>
      if String.eqb k key then (k, v) :: rest
      else (k, x) :: set_prop rest key v
  end.

(** [for (const key of allowedUpdates)
       if (updates[key] !== undefined) filteredUpdates[key] = updates[key]] *)
Fixpoint filter_updates (updates : value) (keys : list string)
    (filteredUpdates : list (string * value)) : list (string * value) :=
  match keys with
  | [] => filteredUpdates
  | key :: rest =>
      if negb (is_undefined (prop updates key))
      then filter_updates updates rest
             (set_prop filteredUpdates key (prop updates key))
      else filter_updates updates rest filteredUpdates
  end.

Definition user_update (user : UserRecord) (updates : value) : M Response :=
  try
    (let filteredUpdates := filter_updates updates allowedUpdates [] in
     if Nat.eqb (List.length filteredUpdates) 0
     then ret (status_json 400
            (VObj [("error", VStr "Aucune mise à jour valide fournie");
                   ("allowedUpdates", VArr (map VStr allowedUpdates))]))
     else
       _ <- await (CUpdateUser (uid user) filteredUpdates)
                  (fun env => updateUser env (uid user) filteredUpdates) ;;
       ts <- timestamp ;;
       ret (json (VObj [("success", VBool true);
                        ("message", VStr "Profil mis à jour avec succès");
                        ("updates", VObj filteredUpdates);
                        ("timestamp", ts)])))
  catch error => ret (internal_error error).

(** The object [listUsersResult.users.map] builds of one user. *)
Definition user_summary (user : UserRecord) : value :=
  VObj [("uid", VStr (uid user));
        ("email", of_opt_string (email user));
        ("emailVerified", VBool (emailVerified user));
        ("displayName", of_opt_string (displayName user));
        ("disabled", VBool (disabled user));
        ("metadata",
         VObj [("creationTime", VStr (creationTime (metadata user)));
               ("lastSignInTime",
                of_nullable_string (lastSignInTime (metadata user)))])].

Definition admin_users : M Response :=
  try
    (listUsersResult <- await (CListUsers 100)
                              (fun env => listUsers env 100) ;;
     let users := map user_summary listUsersResult in
     ts <- timestamp ;;
     ret (json (VObj [("success", VBool true);
                      ("count", VNum (Z.of_nat (List.length users)));
                      ("users", VArr users);
                      ("timestamp", ts)])))
  catch error => ret (internal_error error).

(** [app.get(path, authenticateFirebaseUser, handler)] *)
Definition route (handler : UserRecord -> M Response) (req : Request)
  : M Response :=
  o <- authenticateFirebaseUser req ;;
  match o with
  | Respond r => ret r
  | Next user => handler user
  end.

(** [app.get('/api/admin/users', authenticateFirebaseUser, requireAdmin,
    handler)] *)
Definition route_admin_users (req : Request) : M Response :=
  o <- authenticateFirebaseUser req ;;
  match o with
  | Respond r => ret r
  | Next user =>
      g <- requireAdmin (Some user) ;;
      match g with
      | Respond r => ret r
      | Next _ => admin_users
      end
  end.

Definition route_user_update (req : Request) : M Response :=
  route (fun user => user_update user (req_body req)) req.

(** [{ id: supplierId, ...supplier }] of [requireSupplier]: the key under
    [id], then the own properties of the record, a stored [id] replacing
    the key.  The list is in creation order; an enumeration of the object
    would visit integer-like keys first, which no property read depends
    on. *)
Definition spread_supplier (supplierId : string) (supplier : data) : value :=
  VObj (fold_left
          (fun obj (kv : string * data) => set_prop obj (fst kv) (of_data (snd kv)))
          (for_in supplier)
          [("id", VStr supplierId)]).

Definition requireSupplier (req_user : option UserRecord) : M (outcome Ctx) :=
  try
    (match req_user with
     | None =>
         ret (Respond (status_json 401
                (VObj [("error", VStr "Utilisateur non authentifié")])))
     | Some user =>
         suppliers <- await (COnce "fournisseur")
                            (fun env => once_value env "fournisseur") ;;
         let '(isSupplier, supplierData) :=
           scan_suppliers (email user) (uid user) spread_supplier suppliers in
         if negb isSupplier
         then ret (Respond (status_json 403
                (VObj [("error", VStr "Accès refusé");
                       ("message",
                        VStr "Vous n'avez pas les permissions de fournisseur")])))
         else ret (Next {| ctx_user := user; ctx_isAdmin := false;
                           ctx_isSupplier := true;
                           ctx_supplierData := supplierData |})
     end)
  catch error =>
    ret (Respond (status_json 500
           (VObj [("error", VStr "Erreur interne du serveur")]))).

(** GET /api/health.  [firebaseInitialized] is the module variable,
    [uptime] and [memory] are what [process.uptime()] and
    [process.memoryUsage()] return. *)
Definition health (firebaseInitialized : bool) (uptime memory : value)
  : M Response :=
  try
    (ts <- timestamp ;;
     let healthData :=
       [("status", VStr "OK");
        ("timestamp", ts);
        ("uptime", uptime);
        ("firebase",
         VStr (if firebaseInitialized then "connected" else "disconnected"));
        ("database", VStr "unknown");
        ("memory", memory)] in
     healthData <-
       (if firebaseInitialized
        then
          try
            (_ <- await (COnce ".info/connected")
                        (fun env => once_value env ".info/connected") ;;
             ret (set_prop healthData "database" (VStr "connected")))
          catch dbError =>
            ret (set_prop (set_prop healthData "database" (VStr "error"))
                          "databaseError" (VStr (message dbError)))
        else ret healthData) ;;
     ret (json (VObj healthData)))
  catch error =>
    ret (status_json 500 (VObj [("status", VStr "ERROR");
                                ("error", VStr (message error))])).

(** [checkFirebaseConnection()] of the start-up. *)
Definition checkFirebaseConnection (firebaseInitialized : bool) : M bool :=
  if negb firebaseInitialized
  then ret false
  else
    try
      (_ <- await (COnce ".info/connected")
                  (fun env => once_value env ".info/connected") ;;
       _ <- (try
               (_ <- await (CListUsers 1) (fun env => listUsers env 1) ;;
                ret tt)
             catch authError => ret tt) ;;
       ret true)
    catch error => ret false.

End Api.

(** ** The seeding application (POST /api/users/seed) *)
Module Basic.

Record SeedUser : Type := {
  seed_id : Z;
  seed_name : string;
  seed_email : string
}.

Definition seed_users : list SeedUser :=
  [ {| seed_id := 1; seed_name := "Alice"; seed_email := "alice@example.com" |};
    {| seed_id := 2; seed_name := "Bob"; seed_email := "bob@example.com" |};
    {| seed_id := 3; seed_name := "Charlie"; seed_email := "charlie@example.com" |} ].

(** [`users/${user.id}`] *)
Definition user_path (user : SeedUser) : string :=
  "users/" ++ NilZero.string_of_int (Z.to_int (seed_id user)).

Definition user_value (user : SeedUser) : value :=
  VObj [("id", VNum (seed_id user));
        ("name", VStr (seed_name user));
        ("email", VStr (seed_email user))].

(** [for (const user of users) await db.ref(path).set(user)]: [set] is the
    answer of the database to each write, [written] the paths written to
    so far, the failing one included. *)
Fixpoint seed_loop (set : string -> value -> error + unit)
    (users : list SeedUser) (written : list string)
  : list string * (error + unit) :=
  match users with
  | [] => (written, inr tt)
  | user :: rest =>
      match set (user_path user) (user_value user) with
      | inl e => ((written ++ [user_path user])%list, inl e)
      | inr _ => seed_loop set rest (written ++ [user_path user])%list
      end
  end.

(** The handler over a list of users; the application runs it on
    [seed_users]. *)
Definition seed_with (users : list SeedUser)
    (set : string -> value -> error + unit) : list string * Response :=
  match seed_loop set users [] with
  | (written, inr _) =>
      (written,
       json (VObj [("message", VStr "✅ Utilisateurs ajoutés dans Firebase")]))
  | (written, inl e) =>
      (written, status_json 500 (VObj [("error", VStr (message e))]))
  end.

Definition seed : (string -> value -> error + unit) -> list string * Response :=
  seed_with seed_users.

(** GET /api/users: [data ? Object.values(data) : []] of the snapshot of
    'materials'. *)
Definition users : M Response :=
  try
    (materials <- await (COnce "materials")
                        (fun env => once_value env "materials") ;;
     ret (json (match materials with
                | Some d =>
                    if truthy materials
                    then VArr (map (fun kv : string * data => of_data (snd kv))
                                   (for_in d))
                    else VArr []
                | None => VArr []
                end)))
  catch error => ret (status_json 500 (VObj [("error", VStr (message error))])).

End Basic.

(** ** The store behind the environment *)

(** Modelled from the spec: the equality query of the external store,
    [ref.orderByChild(child).equalTo(v).once('value')], "an equality query
    against the admin collection filtered by email == identity.email"; it
    keeps the children whose [child] is the string [v] and yields null
    when there is none. *)
Definition equalTo_query (collection : snapshot) (child v : string) : snapshot :=
  match collection with
  | Some d =>
      match filter (fun kv : string * data => strict_eq (field (snd kv) child) (Some v))
                   (for_in d) with
      | [] => None
      | kept => Some (DObj kept)
      end
  | None => None
  end.

(** The two collections of the role store. *)
Record Store : Type := {
  fournisseur : snapshot;
  admin : snapshot
}.

(** The environment answers the two role lookups from the store, without
    failure. *)
Definition serves (env : Env) (st : Store) : Prop :=
  once_value env "fournisseur" = inr (fournisseur st) /\
  forall e, equalTo_once env "admin" "email" (Some e)
            = inr (equalTo_query (admin st) "email" e).

(** An environment over a store and a directory of users, every call of
    which succeeds; the query rejects an undefined argument. *)
Definition env_of (st : Store) (users : list UserRecord) (who : UserRecord) : Env :=
  {| verifyIdToken := fun _ =>
       inr {| token_uid := uid who; token_email := email who |};
     getUser := fun _ => inr who;
     once_value := fun path =>
       if String.eqb path "fournisseur" then inr (fournisseur st)
       else if String.eqb path "admin" then inr (admin st)
       else inr None;
     equalTo_once := fun path child v =>
       match v with
       | Some e =>
           inr (equalTo_query
                  (if String.eqb path "admin" then admin st
                   else if String.eqb path "fournisseur" then fournisseur st
                   else None) child e)
       | None => inl (Error None "Query.equalTo failed: value is undefined")
       end;
     updateUser := fun _ _ => inr tt;
     listUsers := fun n => inr (firstn n users);
     now := "2024-01-01T00:00:00.000Z" |}.

(** An environment whose database rejects every access. *)
Definition env_down (who : UserRecord) : Env :=
  {| verifyIdToken := fun _ =>
       inr {| token_uid := uid who; token_email := email who |};
     getUser := fun _ => inr who;
     once_value := fun _ => inl (Error None "database unavailable");
     equalTo_once := fun _ _ _ => inl (Error None "database unavailable");
     updateUser := fun _ _ => inr tt;
     listUsers := fun _ => inr [];
     now := "2024-01-01T00:00:00.000Z" |}.

(** An environment whose verifier rejects every token with [c]. *)
Definition env_rejecting (c : string) : Env :=
  {| verifyIdToken := fun _ => inl (Error (Some c) "rejected");
     getUser := fun _ => inl (Error (Some "auth/user-not-found") "no user");
     once_value := fun _ => inr None;
     equalTo_once := fun _ _ _ => inr None;
     updateUser := fun _ _ => inr tt;
     listUsers := fun _ => inr [];
     now := "2024-01-01T00:00:00.000Z" |}.

Definition identity (u : string) (e : option string) : UserRecord :=
  {| uid := u; email := e; emailVerified := true; displayName := None;
     phoneNumber := None; photoURL := None; disabled := false;
     metadata := {| creationTime := "2023-01-01T00:00:00.000Z";
                    lastSignInTime := None |};
     providerData := VArr [] |}.

(** The example of the specification: identity
    [{email:"s@x.com", unique_id:"u1"}] and supplier store
    [{"k1":{"email":"s@x.com","name":"Acme"}}]. *)
Definition example_identity : UserRecord := identity "u1" (Some "s@x.com").

Definition example_store : Store :=
  {| fournisseur :=
       Some (DObj [("k1", DObj [("email", DStr "s@x.com");
                                ("name", DStr "Acme")])]);
     admin := None |}.

Definition example_env : Env :=
  env_of example_store [example_identity] example_identity.

(** The record the specification expects for that example,
    [{record_id:"k1", email:"s@x.com", name:"Acme"}]. *)
Definition spec_example_record : value :=
  VObj [("record_id", VStr "k1"); ("email", VStr "s@x.com");
        ("name", VStr "Acme")].

(** The pair [(isSupplier, supplier)] a response of /api/check-supplier
    carries. *)
Definition supplier_result (r : Response) : value * value :=
  (prop (body r) "isSupplier", prop (body r) "supplier").

(** The pair [(isSupplier, isAdmin)] a response of /api/check-roles
    carries. *)
Definition roles_result (r : Response) : value * value :=
  (prop (prop (body r) "roles") "isSupplier",
   prop (prop (body r) "roles") "isAdmin").

(** The bodies of the successful answers. *)
Definition user_brief (user : UserRecord) : value :=
  VObj [("uid", VStr (uid user)); ("email", of_opt_string (email user))].

Definition check_supplier_ok (env : Env) (user : UserRecord)
    (isSupplier : bool) (supplierData : value) : Response :=
  json (VObj [("isSupplier", VBool isSupplier);
              ("supplier", supplierData);
              ("user", user_brief user);
              ("timestamp", VStr (now env))]).

Definition check_roles_ok (env : Env) (user : UserRecord)
    (isSupplier isAdmin : bool) (supplierData : value) : Response :=
  json (VObj [("user", VObj [("uid", VStr (uid user));
                             ("email", of_opt_string (email user));
                             ("emailVerified", VBool (emailVerified user));
                             ("displayName", of_opt_string (displayName user))]);
              ("roles", VObj [("isSupplier", VBool isSupplier);
                              ("isAdmin", VBool isAdmin);
                              ("isAuthenticated", VBool true)]);
              ("supplier", supplierData);
              ("timestamp", VStr (now env))]).

(** ** Further identities, stores and answers used below *)

Definition no_email_identity : UserRecord := identity "u9" None.

Definition no_email_store : Store :=
  {| fournisseur :=
       Some (DObj [("k1", DObj [("email", DStr "a@x.com"); ("name", DStr "A")]);
                   ("k2", DObj [("name", DStr "NoMail")]);
                   ("k3", DObj [("name", DStr "Later")])]);
     admin := None |}.

Definition stranger : UserRecord := identity "u7" (Some "nobody@x.com").

Definition upper_identity : UserRecord := identity "u1" (Some "A@x.com").

(** Supplier and admin records stored with the lower-case email; the
    supplier record carries another id. *)
Definition lower_store : Store :=
  {| fournisseur :=
       Some (DObj [("k1", DObj [("email", DStr "a@x.com"); ("id", DStr "u2")])]);
     admin := Some (DObj [("a1", DObj [("email", DStr "a@x.com")])]) |}.

(** The same supplier record, carrying the identity's uid. *)
Definition lower_store_same_id : Store :=
  {| fournisseur :=
       Some (DObj [("k1", DObj [("email", DStr "a@x.com"); ("id", DStr "u1")])]);
     admin := Some (DObj [("a1", DObj [("email", DStr "a@x.com")])]) |}.

(** The entry of [filteredUpdates] an allowed key gives rise to. *)
Definition picked (updates : value) (key : string) : list (string * value) :=
  if is_undefined (prop updates key) then [] else [(key, prop updates key)].

Definition no_valid_update : Response :=
  status_json 400
    (VObj [("error", VStr "Aucune mise à jour valide fournie");
           ("allowedUpdates", VArr [VStr "displayName"; VStr "photoURL"])]).

(** The identity provider returns at most [maxResults] users. *)
Definition honours_maxResults (env : Env) : Prop :=
  forall n listed, listUsers env n = inr listed -> List.length listed <= n.

Definition users_of (r : Response) : value := prop (body r) "users".

Definition count_of (r : Response) : value := prop (body r) "count".

Definition directory (n : nat) : list UserRecord :=
  repeat example_identity n.

(** A directory of 250 users behind an administrator: 100 of them are
    listed. *)
Definition admin_store : Store :=
  {| fournisseur := None;
     admin := Some (DObj [("a1", DObj [("email", DStr "s@x.com")])]) |}.

(** An environment whose supplier collection is read but whose admin query
    fails. *)
Definition env_query_down (st : Store) (who : UserRecord) : Env :=
  {| verifyIdToken := fun _ =>
       inr {| token_uid := uid who; token_email := email who |};
     getUser := fun _ => inr who;
     once_value := fun path =>
       if String.eqb path "fournisseur" then inr (fournisseur st) else inr None;
     equalTo_once := fun _ _ _ => inl (Error None "query timed out");
     updateUser := fun _ _ => inr tt;
     listUsers := fun _ => inr [];
     now := "2024-01-01T00:00:00.000Z" |}.

(** Some record of the collection matches the identity, by email or by
    id. *)
Definition has_supplier (user_email : option string) (user_uid : string)
    (suppliers : snapshot) : bool :=
  match suppliers with
  | Some d =>
      existsb (fun kv : string * data => supplier_matches user_email user_uid (snd kv))
              (for_in d)
  | None => false
  end.

(** The identity a decoded token carries, as the first version of the
    application uses it. *)
Definition token_of (user : UserRecord) : DecodedToken :=
  {| token_uid := uid user; token_email := email user |}.

(** Two records that both match the identity of the example, one by
    email and one by id, in the two possible orders. *)
Definition two_suppliers : Store :=
  {| fournisseur :=
       Some (DObj [("k1", DObj [("email", DStr "s@x.com"); ("name", DStr "First")]);
                   ("k2", DObj [("id", DStr "u1"); ("name", DStr "Second")])]);
     admin := None |}.

Definition two_suppliers_swapped : Store :=
  {| fournisseur :=
       Some (DObj [("k2", DObj [("id", DStr "u1"); ("name", DStr "Second")]);
                   ("k1", DObj [("email", DStr "s@x.com"); ("name", DStr "First")])]);
     admin := None |}.

(** A supplier record whose own [id] is the uid of the example identity,
    stored under another key. *)
Definition id_store : Store :=
  {| fournisseur :=
       Some (DObj [("k1", DObj [("id", DStr "u1"); ("name", DStr "Acme")])]);
     admin := None |}.

(** A request carrying a bearer token. *)
Definition bearer_request (token : string) : Request :=
  {| authorization := Some ("Bearer " ++ token); req_body := VUndefined |}.

(** An environment whose identity provider refuses to list users. *)
Definition env_rejecting_users (who : UserRecord) : Env :=
  {| verifyIdToken := fun _ =>
       inr {| token_uid := uid who; token_email := email who |};
     getUser := fun _ => inr who;
     once_value := fun _ => inr None;
     equalTo_once := fun _ _ _ => inr None;
     updateUser := fun _ _ => inr tt;
     listUsers := fun _ => inl (Error (Some "auth/insufficient-permission")
                                      "not allowed to list users");
     now := "2024-01-01T00:00:00.000Z" |}.

(** An environment whose identity provider refuses every update. *)
Definition env_update_down (who : UserRecord) : Env :=
  {| verifyIdToken := fun _ =>
       inr {| token_uid := uid who; token_email := email who |};
     getUser := fun _ => inr who;
     once_value := fun _ => inr None;
     equalTo_once := fun _ _ _ => inr None;
     updateUser := fun _ _ => inl (Error None "update refused");
     listUsers := fun _ => inr [];
     now := "2024-01-01T00:00:00.000Z" |}.

(** A database that refuses the write at users/2. *)
Definition set_failing_on_bob (path : string) (v : value) : error + unit :=
  if String.eqb path "users/2" then inl (Error None "write refused") else inr tt.

(** A call to the identity provider made by the authentication middleware. *)
Definition auth_call (c : call) : Prop :=
  match c with
  | CVerifyIdToken _ | CGetUser _ => True
  | _ => False
  end.

(** The database accepts the write of one seeded user. *)
Definition write_ok (set : string -> value -> error + unit) (user : Basic.SeedUser)
  : Prop :=
  exists x, set (Basic.user_path user) (Basic.user_value user) = inr x.

(** The database SDK validates the argument of [equalTo] where the query
    is built: an undefined value is rejected with an Error, thrown inside
    the [try] of the handler, whatever the store holds. *)
Definition rejects_undefined (env : Env) : Prop :=
  forall path child, exists e, equalTo_once env path child None = inl e.

(** What the identity provider knows of a token. *)
Inductive token_state : Type :=
| TokenValid (claims : DecodedToken)
| TokenMalformed
| TokenExpired
| TokenRevoked (claims : DecodedToken).

(** The verifier of the identity provider,
    [verifyIdToken(idToken, checkRevoked)], after its documented contract:
    a malformed token is rejected with auth/argument-error and an expired
    one with auth/id-token-expired; whether the token was revoked is
    looked up only when [checkRevoked] is true, and the token is then
    rejected with auth/id-token-revoked. *)
Definition sdk_verifyIdToken (tokens : string -> token_state)
    (checkRevoked : bool) (idToken : option string) : error + DecodedToken :=
  match idToken with
  | None => inl (Error (Some "auth/argument-error") "no token")
  | Some t =>
      match tokens t with
      | TokenValid claims => inr claims
      | TokenMalformed =>
          inl (Error (Some "auth/argument-error") "malformed token")
      | TokenExpired =>
          inl (Error (Some "auth/id-token-expired") "expired token")
      | TokenRevoked claims =>
          if checkRevoked
          then inl (Error (Some "auth/id-token-revoked") "revoked token")
          else inr claims
      end
  end.

(** The environment of [env_of] behind that verifier.  Both middlewares call
    [verifyIdToken(token)] with the token alone, so [checkRevoked] is
    undefined, that is false. *)
Definition env_verifying (tokens : string -> token_state) (st : Store)
    (who : UserRecord) : Env :=
  {| verifyIdToken := sdk_verifyIdToken tokens false;
     getUser := getUser (env_of st [] who);
     once_value := once_value (env_of st [] who);
     equalTo_once := equalTo_once (env_of st [] who);
     updateUser := updateUser (env_of st [] who);
     listUsers := listUsers (env_of st [] who);
     now := now (env_of st [] who) |}.

(** Four tokens of the example identity, one in each state. *)
Definition example_tokens (t : string) : token_state :=
  if String.eqb t "good-token" then TokenValid (token_of example_identity)
  else if String.eqb t "revoked-token" then TokenRevoked (token_of example_identity)
  else if String.eqb t "expired-token" then TokenExpired
  else TokenMalformed.

(** A lookup of /api/check-roles fails: the read of the supplier
    collection, or the admin query. *)
Definition lookup_fails (env : Env) (user : UserRecord) : Prop :=
  (exists e, once_value env "fournisseur" = inl e) \/
  (exists e, equalTo_once env "admin" "email" (email user) = inl e).

(** * Properties *)

(** ** Strict equality and the scan *)

Lemma strict_eq_true (x : option data) (y : option string) :
  strict_eq x y = true <->
  (x = None /\ y = None) \/ (exists a, x = Some (DStr a) /\ y = Some a).
Proof.
  split.
  - destruct x as [[b | n | a | cs] |], y as [b' |]; simpl; try discriminate.
    + intros H. apply String.eqb_eq in H. subst. right. eauto.
    + intros _. left. split; reflexivity.
  - intros [[-> ->] | [a [-> ->]]]; simpl.
    + reflexivity.
    + apply String.eqb_refl.
Qed.

Lemma strict_eq_strings (a b : string) :
  strict_eq (Some (DStr a)) (Some b) = true <-> a = b.
Proof. simpl. apply String.eqb_eq. Qed.

Section ScanFacts.

Variable user_email : option string.
Variable user_uid : string.
Variable keep : string -> data -> value.

Let matches := supplier_matches user_email user_uid.

Lemma scan_no_match entries isSupplier supplierData :
  (forall k s, In (k, s) entries -> matches s = false) ->
  scan user_email user_uid keep entries isSupplier supplierData
  = (isSupplier, supplierData).
Proof.
  induction entries as [| [k s] rest IH]; intros Hno; simpl.
  - reflexivity.
  - fold matches. rewrite (Hno k s (or_introl eq_refl)).
    apply IH. intros k' s' Hin. apply (Hno k' s'). right. exact Hin.
Qed.

Lemma scan_first_match before supplierId supplier after isSupplier supplierData :
  (forall k s, In (k, s) before -> matches s = false) ->
  matches supplier = true ->
  scan user_email user_uid keep (before ++ (supplierId, supplier) :: after)%list
       isSupplier supplierData
  = (true, keep supplierId supplier).
Proof.
  induction before as [| [k s] rest IH]; intros Hno Hyes; simpl.
  - fold matches. rewrite Hyes. reflexivity.
  - fold matches. rewrite (Hno k s (or_introl eq_refl)).
    apply IH; [| exact Hyes].
    intros k' s' Hin. apply (Hno k' s'). right. exact Hin.
Qed.

End ScanFacts.

Lemma for_in_truthy (d : data) :
  for_in d <> [] -> truthy (Some d) = true.
Proof.
  destruct d as [b | n | s | cs]; simpl; intros H; try congruence.
  destruct s; simpl in *; congruence.
Qed.

Lemma scan_suppliers_first_match user_email user_uid keep d
      before supplierId supplier after :
  for_in d = (before ++ (supplierId, supplier) :: after)%list ->
  (forall k s, In (k, s) before ->
               supplier_matches user_email user_uid s = false) ->
  supplier_matches user_email user_uid supplier = true ->
  scan_suppliers user_email user_uid keep (Some d)
  = (true, keep supplierId supplier).
Proof.
  intros Hd Hno Hyes. unfold scan_suppliers.
  rewrite for_in_truthy.
  - rewrite Hd. apply scan_first_match; assumption.
  - rewrite Hd. destruct before; discriminate.
Qed.

Lemma scan_suppliers_no_match user_email user_uid keep suppliers :
  (forall d k s, suppliers = Some d -> In (k, s) (for_in d) ->
                 supplier_matches user_email user_uid s = false) ->
  scan_suppliers user_email user_uid keep suppliers = (false, VNull).
Proof.
  intros Hno. unfold scan_suppliers.
  destruct suppliers as [d |]; [| reflexivity].
  destruct (truthy (Some d)); [| reflexivity].
  apply scan_no_match. intros k s Hin. exact (Hno d k s eq_refl Hin).
Qed.

(** ** One run of each handler

    What a handler logs and answers, given the answers of the store. *)

Lemma check_supplier_run env user suppliers :
  once_value env "fournisseur" = inr suppliers ->
  run (Api.check_supplier user) env
  = ([COnce "fournisseur"],
     inr (check_supplier_ok env user
            (fst (scan_suppliers (email user) (uid user)
                                 Api.supplierData_of suppliers))
            (snd (scan_suppliers (email user) (uid user)
                                 Api.supplierData_of suppliers)))).
Proof.
  intros Hread.
  unfold run, Api.check_supplier, try_catch, bind, await. simpl. rewrite Hread.
  destruct (scan_suppliers (email user) (uid user) Api.supplierData_of suppliers)
    as [isSupplier supplierData].
  reflexivity.
Qed.

Lemma check_supplier_run_failure env user e :
  once_value env "fournisseur" = inl e ->
  run (Api.check_supplier user) env
  = ([COnce "fournisseur"], inr (Api.internal_error e)).
Proof.
  intros Hread.
  unfold run, Api.check_supplier, try_catch, bind, await. simpl. rewrite Hread.
  reflexivity.
Qed.

Lemma check_roles_run env user suppliers adminData :
  once_value env "fournisseur" = inr suppliers ->
  equalTo_once env "admin" "email" (email user) = inr adminData ->
  run (Api.check_roles user) env
  = ([COnce "fournisseur"; CEqualTo "admin" "email" (email user)],
     inr (check_roles_ok env user
            (fst (scan_suppliers (email user) (uid user)
                                 Api.roles_supplierData suppliers))
            (not_null adminData)
            (snd (scan_suppliers (email user) (uid user)
                                 Api.roles_supplierData suppliers)))).
Proof.
  intros Hread Hquery.
  unfold run, Api.check_roles, try_catch, bind, await. simpl. rewrite Hread.
  destruct (scan_suppliers (email user) (uid user) Api.roles_supplierData suppliers)
    as [isSupplier supplierData].
  simpl. rewrite Hquery. reflexivity.
Qed.

Lemma check_roles_run_read_failure env user e :
  once_value env "fournisseur" = inl e ->
  run (Api.check_roles user) env
  = ([COnce "fournisseur"], inr (Api.internal_error e)).
Proof.
  intros Hread.
  unfold run, Api.check_roles, try_catch, bind, await. simpl. rewrite Hread.
  reflexivity.
Qed.

Lemma check_roles_run_query_failure env user suppliers e :
  once_value env "fournisseur" = inr suppliers ->
  equalTo_once env "admin" "email" (email user) = inl e ->
  run (Api.check_roles user) env
  = ([COnce "fournisseur"; CEqualTo "admin" "email" (email user)],
     inr (Api.internal_error e)).
Proof.
  intros Hread Hquery.
  unfold run, Api.check_roles, try_catch, bind, await. simpl. rewrite Hread.
  destruct (scan_suppliers (email user) (uid user) Api.roles_supplierData suppliers)
    as [isSupplier supplierData].
  simpl. rewrite Hquery. reflexivity.
Qed.

Lemma check_supplier_stops_at env user d before supplierId supplier after :
  once_value env "fournisseur" = inr (Some d) ->
  for_in d = (before ++ (supplierId, supplier) :: after)%list ->
  (forall k s, In (k, s) before ->
               supplier_matches (email user) (uid user) s = false) ->
  supplier_matches (email user) (uid user) supplier = true ->
  run (Api.check_supplier user) env
  = ([COnce "fournisseur"],
     inr (check_supplier_ok env user true
            (Api.supplierData_of supplierId supplier))).
Proof.
  intros Hread Hd Hno Hyes.
  rewrite (check_supplier_run env user _ Hread).
  rewrite (@scan_suppliers_first_match _ _ Api.supplierData_of _ _ _ _ _ Hd Hno Hyes).
  reflexivity.
Qed.

(** ** /api/check-supplier *)

(** C1 (as amended).  For every identity and every supplier collection, if
    [supplier] under key [supplierId] is the first record, in enumeration
    order, whose email is strictly equal to the identity's email or whose
    id is strictly equal to its uid, then /api/check-supplier reads the
    collection once and answers 200 with [isSupplier = true] and with
    [supplier = {id: supplierId, name: supplier.name, departement:
    supplier.departement}]: the key, the name and the departement of that
    record, not the stored record with its email. *)
Theorem check_supplier_first_match :
  forall env user d before supplierId supplier after,
    once_value env "fournisseur" = inr (Some d) ->
    for_in d = (before ++ (supplierId, supplier) :: after)%list ->
    (forall k s, In (k, s) before ->
                 supplier_matches (email user) (uid user) s = false) ->
    supplier_matches (email user) (uid user) supplier = true ->
    run (Api.check_supplier user) env
    = ([COnce "fournisseur"],
       inr (check_supplier_ok env user true
              (VObj [("id", VStr supplierId);
                     ("name", of_field (field supplier "name"));
                     ("departement", of_field (field supplier "departement"))]))).
Proof.
  intros env user d before supplierId supplier after Hread Hd Hno Hyes.
  exact (check_supplier_stops_at env user d before supplierId supplier after Hread Hd Hno Hyes).
Qed.

(** On the example of the specification the answer is
    [(true, {id:"k1", name:"Acme", departement: undefined})]. *)
Lemma check_supplier_first_match_example :
  run (Api.check_supplier example_identity) example_env
  = ([COnce "fournisseur"],
     inr (check_supplier_ok example_env example_identity true
            (VObj [("id", VStr "k1"); ("name", VStr "Acme");
                   ("departement", VUndefined)]))).
Proof.
  apply (check_supplier_first_match example_env example_identity
           (DObj [("k1", DObj [("email", DStr "s@x.com"); ("name", DStr "Acme")])])
           [] "k1" (DObj [("email", DStr "s@x.com"); ("name", DStr "Acme")]) []).
  - reflexivity.
  - reflexivity.
  - intros k s [].
  - reflexivity.
Defined.

(** C1, as stated, fails on its own example: the supplier object of the
    answer is not [{record_id:"k1", email:"s@x.com", name:"Acme"}], and
    whatever the key is called it has no email. *)
Lemma check_supplier_example_not_record :
  (exists r,
      run (Api.check_supplier example_identity) example_env
      = ([COnce "fournisseur"], inr r) /\
      supplier_result r
      = (VBool true, VObj [("id", VStr "k1"); ("name", VStr "Acme");
                           ("departement", VUndefined)]) /\
      supplier_result r <> (VBool true, spec_example_record) /\
      prop (prop (body r) "supplier") "email" = VUndefined) /\
  (exists r,
      run (ServerJs.check_supplier
             {| token_uid := "u1"; token_email := Some "s@x.com" |}) example_env
      = ([COnce "fournisseur"], inr r) /\
      supplier_result r = (VBool true, VUndefined)).
Proof.
  split.
  - eexists. split; [reflexivity |].
    repeat split; try reflexivity. vm_compute. discriminate.
  - eexists. split; reflexivity.
Qed.

(** The first version stops at the same record and answers
    [{isSupplier: true}] alone. *)
Lemma ServerJs_check_supplier_first_match env user d before supplierId supplier after :
  once_value env "fournisseur" = inr (Some d) ->
  for_in d = (before ++ (supplierId, supplier) :: after)%list ->
  (forall k s, In (k, s) before ->
               supplier_matches (token_email user) (token_uid user) s = false) ->
  supplier_matches (token_email user) (token_uid user) supplier = true ->
  run (ServerJs.check_supplier user) env
  = ([COnce "fournisseur"], inr (json (VObj [("isSupplier", VBool true)]))).
Proof.
  intros Hread Hd Hno Hyes.
  unfold run, ServerJs.check_supplier, try_catch, bind, await. simpl.
  rewrite Hread. rewrite for_in_truthy.
  - unfold ServerJs.is_supplier. rewrite Hd.
    rewrite (scan_first_match _ _ _ before supplierId supplier after _ _ Hno Hyes).
    reflexivity.
  - rewrite Hd. destruct before; discriminate.
Qed.

(** C7.  For every identity, when nothing is stored under the supplier
    collection ([val()] is null) or what is stored enumerates no record,
    /api/check-supplier answers 200 with [isSupplier = false] and
    [supplier = null]; no error is raised and the catch block is not
    entered. *)
Theorem check_supplier_empty_or_absent :
  forall env user suppliers,
    once_value env "fournisseur" = inr suppliers ->
    (suppliers = None \/ exists d, suppliers = Some d /\ for_in d = []) ->
    run (Api.check_supplier user) env
    = ([COnce "fournisseur"], inr (check_supplier_ok env user false VNull)) /\
    status (check_supplier_ok env user false VNull) = 200 /\
    supplier_result (check_supplier_ok env user false VNull)
    = (VBool false, VNull).
Proof.
  intros env user suppliers Hread Hempty.
  split; [| split; reflexivity].
  rewrite (check_supplier_run env user _ Hread).
  rewrite scan_suppliers_no_match; [reflexivity |].
  intros d k s Hd Hin.
  destruct Hempty as [-> | [d' [-> Hnone]]]; [discriminate |].
  injection Hd as <-. rewrite Hnone in Hin. destruct Hin.
Qed.

Lemma check_supplier_empty_or_absent_example :
  run (Api.check_supplier example_identity)
      (env_of {| fournisseur := None; admin := None |} [] example_identity)
  = ([COnce "fournisseur"],
     inr (check_supplier_ok
            (env_of {| fournisseur := None; admin := None |} [] example_identity)
            example_identity false VNull)).
Proof.
  apply (check_supplier_empty_or_absent
           (env_of {| fournisseur := None; admin := None |} [] example_identity)
           example_identity None).
  - reflexivity.
  - left. reflexivity.
Defined.

(** The first version answers [{isSupplier: false}] in the same cases. *)
Lemma ServerJs_check_supplier_empty_or_absent env user suppliers :
  once_value env "fournisseur" = inr suppliers ->
  (suppliers = None \/ exists d, suppliers = Some d /\ for_in d = []) ->
  run (ServerJs.check_supplier user) env
  = ([COnce "fournisseur"], inr (json (VObj [("isSupplier", VBool false)]))).
Proof.
  intros Hread Hempty.
  unfold run, ServerJs.check_supplier, try_catch, bind, await. simpl.
  rewrite Hread.
  destruct Hempty as [-> | [d [-> Hnone]]]; [reflexivity |].
  destruct (truthy (Some d)); [| reflexivity].
  unfold ServerJs.is_supplier. rewrite Hnone. reflexivity.
Qed.

(** C9.  When the identity has no email ([user.email] is undefined) and no
    record's id equals its uid, the scan stops at the first record that
    has no email field: undefined is strictly equal to undefined, and
    /api/check-supplier answers [isSupplier = true] with that record. *)
Theorem check_supplier_undefined_email :
  forall env user d before supplierId supplier after,
    email user = None ->
    once_value env "fournisseur" = inr (Some d) ->
    for_in d = (before ++ (supplierId, supplier) :: after)%list ->
    (forall k s, In (k, s) before -> field s "email" <> None) ->
    field supplier "email" = None ->
    (forall k s, In (k, s) (for_in d) -> id_matches (uid user) s = false) ->
    run (Api.check_supplier user) env
    = ([COnce "fournisseur"],
       inr (check_supplier_ok env user true
              (Api.supplierData_of supplierId supplier))).
Proof.
  intros env user d before supplierId supplier after
         Hemail Hread Hd Hbefore Hnone Hid.
  apply check_supplier_stops_at with (d := d) (before := before) (after := after);
    try assumption.
  - intros k s Hin. unfold supplier_matches, email_matches.
    rewrite Hemail.
    rewrite (Hid k s) by (rewrite Hd; apply in_or_app; left; exact Hin).
    specialize (Hbefore k s Hin).
    destruct (field s "email") as [[] |]; simpl; congruence.
  - unfold supplier_matches, email_matches.
    rewrite Hemail, Hnone. reflexivity.
Qed.

Lemma check_supplier_undefined_email_example :
  run (Api.check_supplier no_email_identity)
      (env_of no_email_store [] no_email_identity)
  = ([COnce "fournisseur"],
     inr (check_supplier_ok (env_of no_email_store [] no_email_identity)
            no_email_identity true
            (VObj [("id", VStr "k2"); ("name", VStr "NoMail");
                   ("departement", VUndefined)]))).
Proof.
  apply (check_supplier_undefined_email
           (env_of no_email_store [] no_email_identity) no_email_identity
           (DObj [("k1", DObj [("email", DStr "a@x.com"); ("name", DStr "A")]);
                  ("k2", DObj [("name", DStr "NoMail")]);
                  ("k3", DObj [("name", DStr "Later")])])
           [("k1", DObj [("email", DStr "a@x.com"); ("name", DStr "A")])]
           "k2" (DObj [("name", DStr "NoMail")])
           [("k3", DObj [("name", DStr "Later")])]).
  - reflexivity.
  - reflexivity.
  - reflexivity.
  - intros k s [H | []]. injection H as _ <-. simpl. discriminate.
  - reflexivity.
  - intros k s [H | [H | [H | []]]]; injection H as _ <-; reflexivity.
Defined.

(** ** /api/check-roles *)

(** The runs of /api/check-roles in which the admin query is answered; it
    is not for an identity without email, see the end of the claims.  When the
    supplier collection is read, /api/check-roles issues the
    admin query whatever the scan has found, and whatever the query
    returns the scan has been run before it: the log of every such run is
    the read followed by the query.  For an identity that no supplier
    record matches (neither by email nor by id) and for which the admin
    query finds no record, the answer is [isSupplier = false] and
    [isAdmin = false]. *)
Theorem check_roles_no_match :
  forall env user suppliers,
    once_value env "fournisseur" = inr suppliers ->
    fst (run (Api.check_roles user) env)
    = [COnce "fournisseur"; CEqualTo "admin" "email" (email user)] /\
    (forall adminData,
        equalTo_once env "admin" "email" (email user) = inr adminData ->
        exists r,
          run (Api.check_roles user) env
          = ([COnce "fournisseur"; CEqualTo "admin" "email" (email user)], inr r) /\
          roles_result r
          = (VBool (fst (scan_suppliers (email user) (uid user)
                                        Api.roles_supplierData suppliers)),
             VBool (not_null adminData))) /\
    ((forall d k s, suppliers = Some d -> In (k, s) (for_in d) ->
                    supplier_matches (email user) (uid user) s = false) ->
     equalTo_once env "admin" "email" (email user) = inr None ->
     run (Api.check_roles user) env
     = ([COnce "fournisseur"; CEqualTo "admin" "email" (email user)],
        inr (check_roles_ok env user false false VNull)) /\
     roles_result (check_roles_ok env user false false VNull)
     = (VBool false, VBool false)).
Proof.
  intros env user suppliers Hread. split; [| split].
  - destruct (equalTo_once env "admin" "email" (email user)) as [e | adminData] eqn:Hquery.
    + rewrite (check_roles_run_query_failure env user suppliers e Hread Hquery).
      reflexivity.
    + rewrite (check_roles_run env user suppliers adminData Hread Hquery).
      reflexivity.
  - intros adminData Hquery. eexists. split.
    + apply (check_roles_run env user suppliers adminData Hread Hquery).
    + reflexivity.
  - intros Hno Hquery. split; [| reflexivity].
    rewrite (check_roles_run env user suppliers None Hread Hquery).
    rewrite (scan_suppliers_no_match _ _ _ _ Hno). reflexivity.
Qed.

Lemma check_roles_no_match_example :
  run (Api.check_roles stranger) (env_of example_store [] stranger)
  = ([COnce "fournisseur"; CEqualTo "admin" "email" (Some "nobody@x.com")],
     inr (check_roles_ok (env_of example_store [] stranger) stranger
            false false VNull)).
Proof.
  refine (proj1 (proj2 (proj2 (check_roles_no_match
           (env_of example_store [] stranger) stranger
           (fournisseur example_store) eq_refl)) _ eq_refl)).
  intros d k s Hd Hin. injection Hd as <-.
  destruct Hin as [H | []]. injection H as _ <-. reflexivity.
Defined.

(** The first version issues the same two lookups and answers false and
    false in the same case. *)
Lemma ServerJs_check_roles_no_match env user suppliers :
  once_value env "fournisseur" = inr suppliers ->
  (forall d k s, suppliers = Some d -> In (k, s) (for_in d) ->
                 supplier_matches (token_email user) (token_uid user) s = false) ->
  equalTo_once env "admin" "email" (token_email user) = inr None ->
  run (ServerJs.check_roles user) env
  = ([COnce "fournisseur"; CEqualTo "admin" "email" (token_email user)],
     inr (json (VObj [("isSupplier", VBool false);
                      ("isAdmin", VBool false);
                      ("user", VObj [("uid", VStr (token_uid user));
                                     ("email", of_opt_string (token_email user))])]))).
Proof.
  intros Hread Hno Hquery.
  unfold run, ServerJs.check_roles, try_catch, bind, await. simpl.
  rewrite Hread. simpl. rewrite Hquery. simpl.
  destruct suppliers as [d |]; [| reflexivity].
  destruct (truthy (Some d)); [| reflexivity].
  unfold ServerJs.is_supplier.
  rewrite scan_no_match; [reflexivity |].
  intros k s Hin. exact (Hno d k s eq_refl Hin).
Qed.

(** C6.  When a store access of /api/check-roles fails, be it the read of
    the supplier collection or the admin query issued after a successful
    scan, the handler answers 500 with the error message alone: the body
    holds no roles, no isSupplier, no isAdmin and no supplier, so nothing
    computed before the failure is reported. *)
Theorem check_roles_store_failure :
  forall env user e,
    (once_value env "fournisseur" = inl e \/
     exists suppliers,
       once_value env "fournisseur" = inr suppliers /\
       equalTo_once env "admin" "email" (email user) = inl e) ->
    exists log r,
      run (Api.check_roles user) env = (log, inr r) /\
      r = status_json 500 (VObj [("error", VStr "Erreur interne du serveur");
                                 ("message", VStr (message e))]) /\
      roles_result r = (VUndefined, VUndefined) /\
      prop (body r) "isSupplier" = VUndefined /\
      prop (body r) "isAdmin" = VUndefined /\
      prop (body r) "supplier" = VUndefined.
Proof.
  intros env user e [Hread | [suppliers [Hread Hquery]]].
  - exists [COnce "fournisseur"], (Api.internal_error e). split.
    + apply (check_roles_run_read_failure env user e Hread).
    + repeat split.
  - exists [COnce "fournisseur"; CEqualTo "admin" "email" (email user)],
           (Api.internal_error e). split.
    + apply (check_roles_run_query_failure env user suppliers e Hread Hquery).
    + repeat split.
Qed.

Lemma check_roles_store_failure_example :
  exists log r,
    run (Api.check_roles example_identity) (env_down example_identity)
    = (log, inr r) /\
    r = status_json 500 (VObj [("error", VStr "Erreur interne du serveur");
                               ("message", VStr "database unavailable")]) /\
    roles_result r = (VUndefined, VUndefined) /\
    prop (body r) "isSupplier" = VUndefined /\
    prop (body r) "isAdmin" = VUndefined /\
    prop (body r) "supplier" = VUndefined.
Proof.
  apply (check_roles_store_failure (env_down example_identity) example_identity
           (Error None "database unavailable")).
  left. reflexivity.
Defined.

(** The supplier of the example is found by the scan, then the admin query
    fails: the answer is the 500 alone. *)
Example check_roles_query_failure_after_match :
  fst (scan_suppliers (email example_identity) (uid example_identity)
                      Api.roles_supplierData (fournisseur example_store)) = true /\
  run (Api.check_roles example_identity)
      (env_query_down example_store example_identity)
  = ([COnce "fournisseur"; CEqualTo "admin" "email" (Some "s@x.com")],
     inr (status_json 500 (VObj [("error", VStr "Erreur interne du serveur");
                                 ("message", VStr "query timed out")]))).
Proof. split; reflexivity. Qed.

(** ** Exact matching *)

Lemma email_matches_exact (e : string) (supplier : data) :
  email_matches (Some e) supplier = true <-> field supplier "email" = Some (DStr e).
Proof.
  unfold email_matches. rewrite strict_eq_true. split.
  - intros [[_ H] | [a [Hf Ha]]]; [discriminate |].
    injection Ha as ->. exact Hf.
  - intros H. right. exists e. split; [exact H | reflexivity].
Qed.

Lemma filter_none {A : Type} (f : A -> bool) (l : list A) :
  (forall x, In x l -> f x = false) -> filter f l = [].
Proof.
  induction l as [| x rest IH]; intros Hno; simpl.
  - reflexivity.
  - rewrite (Hno x (or_introl eq_refl)). apply IH.
    intros y Hin. apply Hno. right. exact Hin.
Qed.

Lemma equalTo_query_sound (collection : snapshot) (child v : string) (d : data) :
  equalTo_query collection child v = Some d ->
  forall k r, In (k, r) (for_in d) -> field r child = Some (DStr v).
Proof.
  unfold equalTo_query. destruct collection as [c |]; [| discriminate].
  destruct (filter _ (for_in c)) as [| kv kept] eqn:Hf; [discriminate |].
  intros H k r Hin. injection H as <-. unfold for_in in Hin. rewrite <- Hf in Hin.
  apply filter_In in Hin. destruct Hin as [_ Hm]. simpl in Hm.
  apply strict_eq_true in Hm. destruct Hm as [[_ H] | [a [Hr Ha]]]; [discriminate |].
  injection Ha as ->. exact Hr.
Qed.

Lemma equalTo_query_none (collection : snapshot) (child v : string) :
  (forall d k r, collection = Some d -> In (k, r) (for_in d) ->
                 strict_eq (field r child) (Some v) = false) ->
  equalTo_query collection child v = None.
Proof.
  intros Hno. unfold equalTo_query. destruct collection as [c |]; [| reflexivity].
  rewrite filter_none; [reflexivity |].
  intros [k r] Hin. exact (Hno c k r eq_refl Hin).
Qed.

(** C8 (as amended).  The email comparison is exact string equality: a
    record matches an identity by email exactly when its email field is
    the identity's email, character for character.  For an identity whose
    email is "A@x.com": a supplier record stored with email "a@x.com" does
    not match by email, and matches only when its id field is the
    identity's uid; the admin query selects no record stored with email
    "a@x.com"; and over a store whose supplier records all carry
    "a@x.com" with another id and whose admin records all carry
    "a@x.com", /api/check-roles answers false and false. *)
Theorem email_match_is_exact :
  forall env st user,
    serves env st ->
    email user = Some "A@x.com" ->
    (forall e supplier,
        email_matches (Some e) supplier = true <->
        field supplier "email" = Some (DStr e)) /\
    (forall supplier,
        field supplier "email" = Some (DStr "a@x.com") ->
        email_matches (email user) supplier = false /\
        supplier_matches (email user) (uid user) supplier
        = id_matches (uid user) supplier) /\
    (exists adminData,
        equalTo_once env "admin" "email" (email user) = inr adminData /\
        forall d k r, adminData = Some d -> In (k, r) (for_in d) ->
                      field r "email" <> Some (DStr "a@x.com")) /\
    ((forall d k s, fournisseur st = Some d -> In (k, s) (for_in d) ->
                    field s "email" = Some (DStr "a@x.com") /\
                    id_matches (uid user) s = false) ->
     (forall d k r, admin st = Some d -> In (k, r) (for_in d) ->
                    field r "email" = Some (DStr "a@x.com")) ->
     run (Api.check_roles user) env
     = ([COnce "fournisseur"; CEqualTo "admin" "email" (email user)],
        inr (check_roles_ok env user false false VNull))).
Proof.
  intros env st user [Hread Hquery] Hemail.
  assert (Hlower : forall supplier,
             field supplier "email" = Some (DStr "a@x.com") ->
             email_matches (email user) supplier = false).
  { intros supplier Hf. unfold email_matches. rewrite Hemail, Hf. reflexivity. }
  split; [exact email_matches_exact | split; [| split]].
  - intros supplier Hf. split; [exact (Hlower supplier Hf) |].
    unfold supplier_matches. rewrite (Hlower supplier Hf). reflexivity.
  - exists (equalTo_query (admin st) "email" "A@x.com"). split.
    + rewrite Hemail. apply Hquery.
    + intros d k r Hd Hin Hf.
      rewrite (equalTo_query_sound _ _ _ _ Hd k r Hin) in Hf. discriminate.
  - intros Hsup Hadm.
    assert (Hq : equalTo_once env "admin" "email" (email user) = inr None).
    { rewrite Hemail, Hquery. f_equal. apply equalTo_query_none.
      intros d k r Hd Hin. rewrite (Hadm d k r Hd Hin). reflexivity. }
    rewrite (check_roles_run env user (fournisseur st) None Hread Hq).
    rewrite scan_suppliers_no_match; [reflexivity |].
    intros d k s Hd Hin. destruct (Hsup d k s Hd Hin) as [Hf Hid].
    unfold supplier_matches. rewrite (Hlower s Hf), Hid. reflexivity.
Qed.

Lemma env_of_serves (st : Store) (users : list UserRecord) (who : UserRecord) :
  serves (env_of st users who) st.
Proof. split; [reflexivity | intros e; reflexivity]. Qed.

Lemma email_match_is_exact_example :
  run (Api.check_roles upper_identity) (env_of lower_store [] upper_identity)
  = ([COnce "fournisseur"; CEqualTo "admin" "email" (Some "A@x.com")],
     inr (check_roles_ok (env_of lower_store [] upper_identity) upper_identity
            false false VNull)).
Proof.
  refine (proj2 (proj2 (proj2 (email_match_is_exact
            (env_of lower_store [] upper_identity) lower_store upper_identity
            (env_of_serves lower_store [] upper_identity) eq_refl))) _ _).
  - intros d k s Hd Hin. injection Hd as <-.
    destruct Hin as [H | []]. injection H as _ <-. split; reflexivity.
  - intros d k r Hd Hin. injection Hd as <-.
    destruct Hin as [H | []]. injection H as _ <-. reflexivity.
Defined.

(** C8, as stated, fails for suppliers: the identity with email "A@x.com"
    and uid "u1" matches the supplier record stored with email "a@x.com"
    and id "u1", and /api/check-roles reports [isSupplier = true]. *)
Lemma lowercase_record_matched_by_id :
  email upper_identity = Some "A@x.com" /\
  field (DObj [("email", DStr "a@x.com"); ("id", DStr "u1")]) "email"
  = Some (DStr "a@x.com") /\
  supplier_matches (email upper_identity) (uid upper_identity)
                   (DObj [("email", DStr "a@x.com"); ("id", DStr "u1")]) = true /\
  exists r,
    run (Api.check_roles upper_identity)
        (env_of lower_store_same_id [] upper_identity)
    = ([COnce "fournisseur"; CEqualTo "admin" "email" (Some "A@x.com")], inr r) /\
    roles_result r = (VBool true, VBool false).
Proof.
  repeat split. eexists. split; reflexivity.
Qed.

(** ** The guards *)

(** The runs of the guard in which the admin query is answered; it is not
    for an identity without email, see the end of the claims.  For every
    authenticated identity for which the admin query
    completes and finds no record, [requireAdmin] answers 403 and does not
    call [next()]; the only call it issues is that query. *)
Theorem requireAdmin_forbidden :
  forall env user,
    equalTo_once env "admin" "email" (email user) = inr None ->
    exists r,
      run (Api.requireAdmin (Some user)) env
      = ([CEqualTo "admin" "email" (email user)], inr (Respond r)) /\
      status r = 403 /\ status r <> 500.
Proof.
  intros env user Hquery.
  unfold run, Api.requireAdmin, try_catch, bind, await. simpl.
  rewrite Hquery. simpl. eexists. split; [reflexivity |].
  split; [reflexivity | discriminate].
Qed.

Lemma requireAdmin_forbidden_example :
  exists r,
    run (Api.requireAdmin (Some example_identity)) example_env
    = ([CEqualTo "admin" "email" (Some "s@x.com")], inr (Respond r)) /\
    status r = 403 /\ status r <> 500.
Proof.
  apply (requireAdmin_forbidden example_env example_identity).
  reflexivity.
Defined.

(** Over a store that answers, an identity whose email no admin record
    carries is refused with 403. *)
Lemma requireAdmin_forbidden_store env st user e :
  serves env st ->
  email user = Some e ->
  (forall d k r, admin st = Some d -> In (k, r) (for_in d) ->
                 field r "email" <> Some (DStr e)) ->
  exists r,
    run (Api.requireAdmin (Some user)) env
    = ([CEqualTo "admin" "email" (email user)], inr (Respond r)) /\
    status r = 403.
Proof.
  intros [_ Hquery] Hemail Hno.
  unfold run, Api.requireAdmin, try_catch, bind, await. simpl.
  rewrite Hemail, Hquery, equalTo_query_none.
  - simpl. eexists. split; reflexivity.
  - intros d k r Hd Hin.
    destruct (strict_eq (field r "email") (Some e)) eqn:Hm; [| reflexivity].
    apply strict_eq_true in Hm. destruct Hm as [[_ H] | [a [Hr Ha]]]; [discriminate |].
    injection Ha as ->. elim (Hno d k r Hd Hin Hr).
Qed.

(** When the query itself fails the guard answers 500. *)
Lemma requireAdmin_store_failure env user e :
  equalTo_once env "admin" "email" (email user) = inl e ->
  run (Api.requireAdmin (Some user)) env
  = ([CEqualTo "admin" "email" (email user)],
     inr (Respond (status_json 500 (VObj [("error", VStr "Erreur interne du serveur")])))).
Proof.
  intros Hquery.
  unfold run, Api.requireAdmin, try_catch, bind, await. simpl.
  rewrite Hquery. reflexivity.
Qed.

(** ** Authentication *)

Lemma code_is_true (e : error) (c : string) :
  code_is e c = true <-> code e = Some c.
Proof.
  unfold code_is. destruct (code e) as [c' |].
  - rewrite String.eqb_eq. split; congruence.
  - split; discriminate.
Qed.

Lemma auth_failure_status (e : error) :
  code e <> Some "auth/user-not-found" ->
  status (Api.auth_failure e) = 401.
Proof.
  intros Hcode. unfold Api.auth_failure.
  destruct (code_is e "auth/id-token-expired"); [reflexivity |].
  destruct (code_is e "auth/id-token-revoked"); [reflexivity |].
  destruct (code_is e "auth/user-not-found") eqn:Hnf; [| reflexivity].
  apply code_is_true in Hnf. contradiction.
Qed.

(** What the middleware does once the verifier has rejected a token; a
    revoked token is not rejected, see the end of the claims.
    On a route behind the bearer-token middleware, when the
    Authorization header is missing, empty or not of the form
    [Bearer <token>], or when the verifier rejects the token with any code
    other than auth/user-not-found (a malformed token is rejected with
    auth/argument-error, an expired one with auth/id-token-expired, a
    revoked one with auth/id-token-revoked), the middleware answers 401,
    [next()] is not called and the route answers 401 whatever its handler
    is.  Both versions of the middleware do so. *)
Theorem authentication_failure_401 :
  forall env req,
    (no_bearer (authorization req) = true \/
     exists e,
       verifyIdToken env (bearer_token (authorization req)) = inl e /\
       code e <> Some "auth/user-not-found") ->
    (exists log r,
        run (Api.authenticateFirebaseUser req) env = (log, inr (Respond r)) /\
        status r = 401 /\
        forall handler, run (Api.route handler req) env = (log, inr r)) /\
    (exists log r,
        run (ServerJs.authenticateUser req) env = (log, inr (Respond r)) /\
        status r = 401 /\
        forall handler, run (ServerJs.route handler req) env = (log, inr r)).
Proof.
  intros env req Hfail.
  unfold Api.route, ServerJs.route, run, bind,
    Api.authenticateFirebaseUser, ServerJs.authenticateUser,
    try_catch, bind, await.
  destruct (no_bearer (authorization req)) eqn:Hnb; simpl.
  - split; eexists; eexists; repeat split.
  - destruct Hfail as [Habs | [e [Hverify Hcode]]]; [discriminate |].
    rewrite Hverify. simpl. split.
    + exists [CVerifyIdToken (bearer_token (authorization req))],
             (Api.auth_failure e).
      split; [reflexivity |]. split; [| reflexivity].
      exact (auth_failure_status e Hcode).
    + eexists; eexists; repeat split.
Qed.

(** An expired token on /api/check-roles. *)
Lemma authentication_failure_401_example :
  exists log r,
    run (Api.authenticateFirebaseUser
           {| authorization := Some "Bearer abc"; req_body := VUndefined |})
        (env_rejecting "auth/id-token-expired")
    = (log, inr (Respond r)) /\
    status r = 401 /\
    forall handler,
      run (Api.route handler
             {| authorization := Some "Bearer abc"; req_body := VUndefined |})
          (env_rejecting "auth/id-token-expired")
      = (log, inr r).
Proof.
  refine (proj1 (authentication_failure_401
            (env_rejecting "auth/id-token-expired")
            {| authorization := Some "Bearer abc"; req_body := VUndefined |} _)).
  right. exists (Error (Some "auth/id-token-expired") "rejected").
  split; [reflexivity | discriminate].
Defined.

(** The token handed to the verifier is what follows the prefix. *)
Example bearer_token_plain : bearer_token (Some "Bearer abc") = Some "abc".
Proof. reflexivity. Qed.

Example bearer_token_missing :
  no_bearer None = true /\ no_bearer (Some "") = true /\
  no_bearer (Some "Basic abc") = true /\ no_bearer (Some "Bearer abc") = false.
Proof. repeat split. Qed.

(** The one other status of the middleware: the verifier or the user
    lookup reports that the user does not exist. *)
Lemma authentication_user_not_found env req decodedToken e :
  no_bearer (authorization req) = false ->
  verifyIdToken env (bearer_token (authorization req)) = inr decodedToken ->
  getUser env (token_uid decodedToken) = inl e ->
  code e = Some "auth/user-not-found" ->
  exists r,
    run (Api.authenticateFirebaseUser req) env
    = ([CVerifyIdToken (bearer_token (authorization req));
        CGetUser (token_uid decodedToken)], inr (Respond r)) /\
    status r = 404.
Proof.
  intros Hnb Hverify Hget Hcode.
  unfold run, Api.authenticateFirebaseUser, try_catch, bind, await.
  rewrite Hnb. simpl. rewrite Hverify. simpl. rewrite Hget. simpl.
  eexists. split; [reflexivity |].
  unfold Api.auth_failure, code_is. rewrite Hcode. reflexivity.
Qed.

(** ** /api/user/update *)

Lemma filter_updates_allowed (updates : value) :
  Api.filter_updates updates Api.allowedUpdates []
  = (picked updates "displayName" ++ picked updates "photoURL")%list.
Proof.
  unfold Api.allowedUpdates, picked. simpl.
  destruct (is_undefined (prop updates "displayName"));
    destruct (is_undefined (prop updates "photoURL")); reflexivity.
Qed.

Lemma is_undefined_true (v : value) : is_undefined v = true <-> v = VUndefined.
Proof. destruct v; simpl; split; congruence. Qed.

Lemma picked_in (updates : value) (key k : string) (v : value) :
  In (k, v) (picked updates key) ->
  k = key /\ v = prop updates k /\ v <> VUndefined.
Proof.
  unfold picked. destruct (is_undefined (prop updates key)) eqn:Hu; simpl.
  - intros [].
  - intros [H | []]. injection H as <- <-. repeat split.
    intros Hv. apply is_undefined_true in Hv. congruence.
Qed.

(** C4.  /api/user/update passes to [updateUser] an object made of the
    [displayName] and [photoURL] of the body, each only if the body
    defines it, and of nothing else: every other field of the body is
    dropped.  When the body defines neither, the handler answers 400 with
    [allowedUpdates: ["displayName", "photoURL"]] and issues no call at
    all; otherwise its only call is that [updateUser], and on success it
    answers 200 with the same object. *)
Theorem user_update_whitelist :
  forall env user updates,
    let filteredUpdates :=
      (picked updates "displayName" ++ picked updates "photoURL")%list in
    (forall k v, In (k, v) filteredUpdates ->
                 (k = "displayName" \/ k = "photoURL") /\
                 v = prop updates k /\ v <> VUndefined) /\
    (prop updates "displayName" = VUndefined ->
     prop updates "photoURL" = VUndefined ->
     run (Api.user_update user updates) env = ([], inr no_valid_update)) /\
    ((prop updates "displayName" <> VUndefined \/
      prop updates "photoURL" <> VUndefined) ->
     fst (run (Api.user_update user updates) env)
     = [CUpdateUser (uid user) filteredUpdates] /\
     (forall u, updateUser env (uid user) filteredUpdates = inr u ->
        run (Api.user_update user updates) env
        = ([CUpdateUser (uid user) filteredUpdates],
           inr (json (VObj [("success", VBool true);
                            ("message", VStr "Profil mis à jour avec succès");
                            ("updates", VObj filteredUpdates);
                            ("timestamp", VStr (now env))]))))).
Proof.
  intros env user updates filteredUpdates. split; [| split].
  - intros k v Hin. apply in_app_or in Hin.
    destruct Hin as [Hin | Hin]; apply picked_in in Hin;
      destruct Hin as [-> [Hv Hdef]]; auto.
  - intros Hd Hp.
    unfold run, Api.user_update, try_catch, bind, await.
    rewrite filter_updates_allowed. unfold picked. rewrite Hd, Hp. reflexivity.
  - intros Hsome.
    assert (Hlen : Nat.eqb (List.length filteredUpdates) 0 = false).
    { subst filteredUpdates. unfold picked.
      destruct (is_undefined (prop updates "displayName")) eqn:Hd;
        destruct (is_undefined (prop updates "photoURL")) eqn:Hp;
        try reflexivity.
      apply is_undefined_true in Hd, Hp. destruct Hsome; contradiction. }
    unfold run, Api.user_update, try_catch, bind, await.
    rewrite filter_updates_allowed. fold filteredUpdates. rewrite Hlen. simpl.
    split.
    + destruct (updateUser env (uid user) filteredUpdates); reflexivity.
    + intros u Hupd. rewrite Hupd. reflexivity.
Qed.

(** The body [{"foo":"bar"}]. *)
Lemma user_update_whitelist_example :
  run (Api.user_update example_identity (VObj [("foo", VStr "bar")])) example_env
  = ([], inr no_valid_update).
Proof.
  apply (proj1 (proj2 (user_update_whitelist example_env example_identity
                         (VObj [("foo", VStr "bar")]))));
    reflexivity.
Defined.

(** A body with an allowed field among others: only the allowed one is
    passed on. *)
Example user_update_drops_other_fields :
  run (Api.user_update example_identity
         (VObj [("foo", VStr "bar"); ("displayName", VStr "Ann");
                ("email", VStr "root@x.com"); ("disabled", VBool true)]))
      example_env
  = ([CUpdateUser "u1" [("displayName", VStr "Ann")]],
     inr (json (VObj [("success", VBool true);
                      ("message", VStr "Profil mis à jour avec succès");
                      ("updates", VObj [("displayName", VStr "Ann")]);
                      ("timestamp", VStr "2024-01-01T00:00:00.000Z")]))).
Proof. reflexivity. Qed.

(** ** /api/admin/users *)

Lemma auth_failure_not_ok (e : error) : status (Api.auth_failure e) <> 200.
Proof.
  unfold Api.auth_failure.
  destruct (code_is e "auth/id-token-expired"); [discriminate |].
  destruct (code_is e "auth/id-token-revoked"); [discriminate |].
  destruct (code_is e "auth/user-not-found"); discriminate.
Qed.

Lemma admin_users_run env listed :
  listUsers env 100 = inr listed ->
  run Api.admin_users env
  = ([CListUsers 100],
     inr (json (VObj [("success", VBool true);
                      ("count", VNum (Z.of_nat (List.length (map Api.user_summary listed))));
                      ("users", VArr (map Api.user_summary listed));
                      ("timestamp", VStr (now env))]))).
Proof.
  intros Hlist. unfold run, Api.admin_users, try_catch, bind, await.
  rewrite Hlist. reflexivity.
Qed.

Lemma admin_users_ok env log0 log r :
  honours_maxResults env ->
  Api.admin_users env log0 = (log, inr r) ->
  status r = 200 ->
  exists users,
    users_of r = VArr users /\
    count_of r = VNum (Z.of_nat (List.length users)) /\
    List.length users <= 100.
Proof.
  intros Hmax Hrun Hok.
  unfold Api.admin_users, try_catch, bind, await in Hrun.
  destruct (listUsers env 100) as [e | listed] eqn:Hlist; simpl in Hrun.
  - injection Hrun as _ <-. discriminate.
  - injection Hrun as _ <-. exists (map Api.user_summary listed).
    repeat split. rewrite length_map. exact (Hmax 100 listed Hlist).
Qed.

Lemma authenticate_respond_not_ok req env log0 log res :
  Api.authenticateFirebaseUser req env log0 = (log, res) ->
  match res with
  | inl _ => False
  | inr (Respond r) => status r <> 200
  | inr (Next _) => True
  end.
Proof.
  unfold Api.authenticateFirebaseUser, try_catch, bind, await.
  destruct (no_bearer (authorization req)); simpl.
  - intros H. injection H as _ <-. simpl. discriminate.
  - destruct (verifyIdToken env (bearer_token (authorization req)))
      as [e | decodedToken]; simpl.
    + intros H. injection H as _ <-. apply auth_failure_not_ok.
    + destruct (getUser env (token_uid decodedToken)) as [e | user]; simpl.
      * intros H. injection H as _ <-. apply auth_failure_not_ok.
      * intros H. injection H as _ <-. exact I.
Qed.

Lemma requireAdmin_respond_not_ok req_user env log0 log res :
  Api.requireAdmin req_user env log0 = (log, res) ->
  match res with
  | inl _ => False
  | inr (Respond r) => status r <> 200
  | inr (Next _) => True
  end.
Proof.
  unfold Api.requireAdmin, try_catch, bind, await.
  destruct req_user as [user |]; simpl.
  - destruct (equalTo_once env "admin" "email" (email user)) as [e | adminData]; simpl.
    + intros H. injection H as _ <-. simpl. discriminate.
    + destruct (truthy adminData); simpl; intros H; injection H as _ <-; simpl.
      * exact I.
      * discriminate.
  - intros H. injection H as _ <-. simpl. discriminate.
Qed.

(** C10.  Given that the identity provider returns at most [maxResults]
    users, every 200 answer of GET /api/admin/users carries at most 100
    users and a [count] equal to the length of [users]; the handler asks
    for 100 users and answers 200 with one summary per user listed
    whenever the listing succeeds. *)
Theorem admin_users_at_most_100 :
  forall env,
    honours_maxResults env ->
    (forall listed,
        listUsers env 100 = inr listed ->
        exists r,
          run Api.admin_users env = ([CListUsers 100], inr r) /\
          status r = 200 /\
          users_of r = VArr (map Api.user_summary listed) /\
          count_of r = VNum (Z.of_nat (List.length (map Api.user_summary listed))) /\
          List.length (map Api.user_summary listed) <= 100) /\
    (forall req log r,
        run (Api.route_admin_users req) env = (log, inr r) ->
        status r = 200 ->
        exists users,
          users_of r = VArr users /\
          count_of r = VNum (Z.of_nat (List.length users)) /\
          List.length users <= 100).
Proof.
  intros env Hmax. split.
  - intros listed Hlist. eexists. split; [apply (admin_users_run env listed Hlist) |].
    repeat split. rewrite length_map. exact (Hmax 100 listed Hlist).
  - intros req log r Hrun Hok.
    unfold run, Api.route_admin_users, bind in Hrun.
    destruct (Api.authenticateFirebaseUser req env []) as [log1 res1] eqn:Hauth.
    apply authenticate_respond_not_ok in Hauth.
    destruct res1 as [e | [r1 | user]]; [contradiction | |].
    + unfold ret in Hrun. injection Hrun as _ <-. contradiction.
    + destruct (Api.requireAdmin (Some user) env log1) as [log2 res2] eqn:Hguard.
      apply requireAdmin_respond_not_ok in Hguard.
      destruct res2 as [e | [r2 | ctx]]; [contradiction | |].
      * unfold ret in Hrun. injection Hrun as _ <-. contradiction.
      * exact (admin_users_ok env log2 log r Hmax Hrun Hok).
Qed.

Lemma env_of_honours_maxResults st users who :
  honours_maxResults (env_of st users who).
Proof.
  intros n listed H. simpl in H. injection H as <-. apply firstn_le_length.
Qed.

Lemma admin_users_at_most_100_example :
  exists users,
    users_of (json (VObj [("success", VBool true);
                          ("count", VNum 100);
                          ("users", VArr (map Api.user_summary (directory 100)));
                          ("timestamp", VStr "2024-01-01T00:00:00.000Z")]))
    = VArr users /\
    count_of (json (VObj [("success", VBool true);
                          ("count", VNum 100);
                          ("users", VArr (map Api.user_summary (directory 100)));
                          ("timestamp", VStr "2024-01-01T00:00:00.000Z")]))
    = VNum (Z.of_nat (List.length users)) /\
    List.length users <= 100.
Proof.
  refine (proj2 (admin_users_at_most_100
            (env_of admin_store (directory 250) example_identity)
            (env_of_honours_maxResults admin_store (directory 250) example_identity))
            {| authorization := Some "Bearer abc"; req_body := VUndefined |}
            [CVerifyIdToken (Some "abc"); CGetUser "u1";
             CEqualTo "admin" "email" (Some "s@x.com"); CListUsers 100]
            _ _ _).
  - vm_compute. reflexivity.
  - reflexivity.
Defined.

(** ** Identities without email, revoked tokens *)

Lemma env_of_rejects_undefined (st : Store) (users : list UserRecord)
      (who : UserRecord) :
  rejects_undefined (env_of st users who).
Proof. intros path child. eexists. reflexivity. Qed.

(** Whatever the store holds, the admin query of an identity without email
    is rejected and /api/check-roles answers 500 after the scan. *)
Lemma check_roles_no_email env user suppliers :
  rejects_undefined env ->
  email user = None ->
  once_value env "fournisseur" = inr suppliers ->
  exists e,
    run (Api.check_roles user) env
    = ([COnce "fournisseur"; CEqualTo "admin" "email" None],
       inr (Api.internal_error e)).
Proof.
  intros Hrej Hemail Hread.
  destruct (Hrej "admin" "email") as [e He]. exists e.
  rewrite <- Hemail in He.
  rewrite (check_roles_run_query_failure env user suppliers e Hread He).
  rewrite Hemail. reflexivity.
Qed.

(** Whatever the store holds, the guard answers 500 to an identity without
    email. *)
Lemma requireAdmin_no_email env user :
  rejects_undefined env ->
  email user = None ->
  run (Api.requireAdmin (Some user)) env
  = ([CEqualTo "admin" "email" None],
     inr (Respond (status_json 500
            (VObj [("error", VStr "Erreur interne du serveur")])))).
Proof.
  intros Hrej Hemail.
  destruct (Hrej "admin" "email") as [e He].
  rewrite <- Hemail in He.
  rewrite (requireAdmin_store_failure env user e He).
  rewrite Hemail. reflexivity.
Qed.

(** C2.  The identity with uid "u9" and no email matches no supplier record
    of the store (the one record carries another email and another id) and
    no admin record (the one record carries an email), and the store
    answers every lookup.  /api/check-roles does not answer false and
    false: the admin query built from the undefined email is rejected, and
    the answer is 500 without roles, although the scan had run and found
    nothing.  /api/check-supplier answers 200 with [isSupplier = false]
    to the same identity. *)
Theorem check_roles_no_email_500 :
  email no_email_identity = None /\
  serves (env_of lower_store [] no_email_identity) lower_store /\
  has_supplier (email no_email_identity) (uid no_email_identity)
               (fournisseur lower_store) = false /\
  (forall d k r, admin lower_store = Some d -> In (k, r) (for_in d) ->
                 strict_eq (field r "email") (email no_email_identity) = false) /\
  (exists r,
      run (Api.check_roles no_email_identity)
          (env_of lower_store [] no_email_identity)
      = ([COnce "fournisseur"; CEqualTo "admin" "email" None], inr r) /\
      status r = 500 /\
      roles_result r = (VUndefined, VUndefined)) /\
  (exists r,
      run (Api.check_supplier no_email_identity)
          (env_of lower_store [] no_email_identity)
      = ([COnce "fournisseur"], inr r) /\
      status r = 200 /\
      supplier_result r = (VBool false, VNull)).
Proof.
  split; [reflexivity |].
  split; [apply env_of_serves |].
  split; [reflexivity |].
  split.
  - intros d k r Hd Hin. injection Hd as <-.
    destruct Hin as [H | []]. injection H as _ <-. reflexivity.
  - split; eexists; (split; [reflexivity | split; reflexivity]).
Qed.

(** C5.  The identity with uid "u9" and no email is authenticated and is not
    in the admin registry (its one record carries an email), and the store
    answers every lookup.  [requireAdmin] does not answer 403: the admin
    query built from the undefined email is rejected inside the [try] and
    the guard answers 500.  [requireSupplier] answers 403 to the same
    identity. *)
Theorem requireAdmin_no_email_500 :
  email no_email_identity = None /\
  serves (env_of lower_store [] no_email_identity) lower_store /\
  (forall d k r, admin lower_store = Some d -> In (k, r) (for_in d) ->
                 strict_eq (field r "email") (email no_email_identity) = false) /\
  (exists r,
      run (Api.requireAdmin (Some no_email_identity))
          (env_of lower_store [] no_email_identity)
      = ([CEqualTo "admin" "email" None], inr (Respond r)) /\
      status r = 500 /\ status r <> 403) /\
  (exists r,
      run (Api.requireSupplier (Some no_email_identity))
          (env_of lower_store [] no_email_identity)
      = ([COnce "fournisseur"], inr (Respond r)) /\
      status r = 403).
Proof.
  split; [reflexivity |].
  split; [apply env_of_serves |].
  split.
  - intros d k r Hd Hin. injection Hd as <-.
    destruct Hin as [H | []]. injection H as _ <-. reflexivity.
  - split.
    + eexists. split; [reflexivity |]. split; [reflexivity | discriminate].
    + eexists. split; reflexivity.
Qed.

(** Both middlewares let a revoked token through, whatever the token and
    the store are: the verifier is called without the revocation check. *)
Lemma revoked_token_verified (tokens : string -> token_state) (st : Store)
      (who : UserRecord) (t : string) (claims : DecodedToken) :
  tokens t = TokenRevoked claims ->
  verifyIdToken (env_verifying tokens st who) (Some t) = inr claims /\
  exists e,
    sdk_verifyIdToken tokens true (Some t) = inl e /\
    code e = Some "auth/id-token-revoked".
Proof.
  intros Hrev. unfold env_verifying, sdk_verifyIdToken. simpl.
  rewrite Hrev. split; [reflexivity |]. eexists. split; reflexivity.
Qed.

(** C3.  A request carrying a revoked token of the example identity.  The
    verifier rejects that token with auth/id-token-revoked when asked to
    check revocation, and the middleware answers 401 to that rejection;
    but both middlewares call [verifyIdToken(token)], which does not
    check revocation: the token is accepted, [next()] is called and
    /api/check-supplier answers 200.  An expired token on the same route
    is answered 401. *)
Theorem revoked_token_accepted :
  example_tokens "revoked-token" = TokenRevoked (token_of example_identity) /\
  (exists e,
      sdk_verifyIdToken example_tokens true (Some "revoked-token") = inl e /\
      code e = Some "auth/id-token-revoked" /\
      status (Api.auth_failure e) = 401) /\
  run (Api.authenticateFirebaseUser (bearer_request "revoked-token"))
      (env_verifying example_tokens example_store example_identity)
  = ([CVerifyIdToken (Some "revoked-token"); CGetUser "u1"],
     inr (Next example_identity)) /\
  run (ServerJs.authenticateUser (bearer_request "revoked-token"))
      (env_verifying example_tokens example_store example_identity)
  = ([CVerifyIdToken (Some "revoked-token")],
     inr (Next (token_of example_identity))) /\
  (exists r,
      run (Api.route Api.check_supplier (bearer_request "revoked-token"))
          (env_verifying example_tokens example_store example_identity)
      = ([CVerifyIdToken (Some "revoked-token"); CGetUser "u1";
          COnce "fournisseur"], inr r) /\
      status r = 200 /\
      prop (body r) "isSupplier" = VBool true) /\
  (exists r,
      run (Api.route Api.check_supplier (bearer_request "expired-token"))
          (env_verifying example_tokens example_store example_identity)
      = ([CVerifyIdToken (Some "expired-token")], inr r) /\
      status r = 401).
Proof.
  split; [reflexivity |].
  split; [eexists; repeat split |].
  split; [reflexivity |].
  split; [reflexivity |].
  split; eexists; (split; [reflexivity | repeat split]).
Qed.

(** * Further properties of the handlers *)

(** ** The scan as a search *)

Lemma scan_fst user_email user_uid keep entries isSupplier supplierData :
  fst (scan user_email user_uid keep entries isSupplier supplierData)
  = existsb (fun kv : string * data => supplier_matches user_email user_uid (snd kv))
            entries
    || isSupplier.
Proof.
  induction entries as [| [k s] rest IH]; simpl.
  - reflexivity.
  - destruct (supplier_matches user_email user_uid s); [reflexivity | exact IH].
Qed.

Lemma falsy_for_in (d : data) : truthy (Some d) = false -> for_in d = [].
Proof.
  destruct d as [b | n | s | cs]; simpl; try reflexivity.
  - destruct s; [reflexivity | discriminate].
  - discriminate.
Qed.

Lemma scan_suppliers_fst user_email user_uid keep suppliers :
  fst (scan_suppliers user_email user_uid keep suppliers)
  = has_supplier user_email user_uid suppliers.
Proof.
  unfold scan_suppliers, has_supplier. destruct suppliers as [d |]; [| reflexivity].
  destruct (truthy (Some d)) eqn:Ht.
  - rewrite scan_fst. apply orb_false_r.
  - rewrite (falsy_for_in d Ht). reflexivity.
Qed.

Lemma has_supplier_true user_email user_uid suppliers :
  has_supplier user_email user_uid suppliers = true <->
  exists d k s, suppliers = Some d /\ In (k, s) (for_in d) /\
                supplier_matches user_email user_uid s = true.
Proof.
  unfold has_supplier. destruct suppliers as [d |].
  - rewrite existsb_exists. split.
    + intros [[k s] [Hin Hm]]. exists d, k, s. auto.
    + intros [d' [k [s [Hd [Hin Hm]]]]]. injection Hd as <-.
      exists (k, s). auto.
  - split; [discriminate |]. intros [d [k [s [Hd _]]]]. discriminate.
Qed.

(** What the scan keeps is null exactly when it has found nothing, as long
    as the object kept of a record is not null itself. *)
Lemma scan_snd_null user_email user_uid keep entries :
  (forall k s, keep k s <> VNull) ->
  (snd (scan user_email user_uid keep entries false VNull) = VNull <->
   fst (scan user_email user_uid keep entries false VNull) = false).
Proof.
  intros Hkeep. induction entries as [| [k s] rest IH]; simpl.
  - split; reflexivity.
  - destruct (supplier_matches user_email user_uid s); [| exact IH].
    simpl. split; [intros H; elim (Hkeep k s H) | discriminate].
Qed.

Lemma scan_suppliers_snd_null user_email user_uid keep suppliers :
  (forall k s, keep k s <> VNull) ->
  (snd (scan_suppliers user_email user_uid keep suppliers) = VNull <->
   fst (scan_suppliers user_email user_uid keep suppliers) = false).
Proof.
  intros Hkeep. unfold scan_suppliers. destruct suppliers as [d |].
  - destruct (truthy (Some d)).
    + apply scan_snd_null. exact Hkeep.
    + split; reflexivity.
  - split; reflexivity.
Qed.

Lemma existsb_permutation {A : Type} (f : A -> bool) (l l' : list A) :
  Permutation l l' -> existsb f l = existsb f l'.
Proof.
  induction 1 as [| x l l' _ IH | x y l | l l' l'' _ IH1 _ IH2]; simpl.
  - reflexivity.
  - rewrite IH. reflexivity.
  - destruct (f x), (f y); reflexivity.
  - rewrite IH1. exact IH2.
Qed.

Lemma check_supplier_ok_isSupplier env user isSupplier supplierData :
  prop (body (check_supplier_ok env user isSupplier supplierData)) "isSupplier"
  = VBool isSupplier.
Proof. reflexivity. Qed.

Lemma check_supplier_ok_supplier env user isSupplier supplierData :
  prop (body (check_supplier_ok env user isSupplier supplierData)) "supplier"
  = supplierData.
Proof. reflexivity. Qed.

(** X1.  Whenever the supplier collection is read, /api/check-supplier
    answers 200, [isSupplier] is true exactly when some record of the
    collection matches the identity by email or by id, and [supplier] is
    null exactly when [isSupplier] is false. *)
Theorem check_supplier_reports_a_match :
  forall env user suppliers,
    once_value env "fournisseur" = inr suppliers ->
    exists r,
      run (Api.check_supplier user) env = ([COnce "fournisseur"], inr r) /\
      status r = 200 /\
      (prop (body r) "isSupplier" = VBool true <->
       exists d k s, suppliers = Some d /\ In (k, s) (for_in d) /\
                     supplier_matches (email user) (uid user) s = true) /\
      (prop (body r) "supplier" = VNull <->
       prop (body r) "isSupplier" = VBool false).
Proof.
  intros env user suppliers Hread.
  eexists. split; [apply (check_supplier_run env user suppliers Hread) |].
  split; [reflexivity |].
  rewrite check_supplier_ok_isSupplier, check_supplier_ok_supplier.
  rewrite scan_suppliers_fst. split.
  - rewrite <- has_supplier_true. split; [congruence |]. intros ->. reflexivity.
  - rewrite <- (scan_suppliers_fst (email user) (uid user) Api.supplierData_of).
    rewrite scan_suppliers_snd_null by (intros k s; discriminate).
    split; [intros ->; reflexivity | congruence].
Qed.

Lemma check_supplier_reports_a_match_example :
  exists r,
    run (Api.check_supplier stranger) (env_of example_store [] stranger)
    = ([COnce "fournisseur"], inr r) /\
    status r = 200 /\
    (prop (body r) "isSupplier" = VBool true <->
     exists d k s, fournisseur example_store = Some d /\ In (k, s) (for_in d) /\
                   supplier_matches (email stranger) (uid stranger) s = true) /\
    (prop (body r) "supplier" = VNull <->
     prop (body r) "isSupplier" = VBool false).
Proof.
  apply (check_supplier_reports_a_match (env_of example_store [] stranger)
           stranger (fournisseur example_store)).
  reflexivity.
Defined.

(** X2.  [isSupplier] does not depend on the order in which the store
    enumerates the records: two collections holding the same records in
    different orders give the same [isSupplier], in /api/check-supplier
    and in /api/check-roles. *)
Theorem isSupplier_order_independent :
  forall env env' user d d',
    once_value env "fournisseur" = inr (Some d) ->
    once_value env' "fournisseur" = inr (Some d') ->
    Permutation (for_in d) (for_in d') ->
    (exists r r',
        run (Api.check_supplier user) env = ([COnce "fournisseur"], inr r) /\
        run (Api.check_supplier user) env' = ([COnce "fournisseur"], inr r') /\
        prop (body r) "isSupplier" = prop (body r') "isSupplier") /\
    (forall adminData adminData',
        equalTo_once env "admin" "email" (email user) = inr adminData ->
        equalTo_once env' "admin" "email" (email user) = inr adminData' ->
        exists r r',
          run (Api.check_roles user) env
          = ([COnce "fournisseur"; CEqualTo "admin" "email" (email user)], inr r) /\
          run (Api.check_roles user) env'
          = ([COnce "fournisseur"; CEqualTo "admin" "email" (email user)], inr r') /\
          fst (roles_result r) = fst (roles_result r')).
Proof.
  intros env env' user d d' Hread Hread' Hperm.
  assert (Hsame : forall keep,
             fst (scan_suppliers (email user) (uid user) keep (Some d))
             = fst (scan_suppliers (email user) (uid user) keep (Some d'))).
  { intros keep. rewrite !scan_suppliers_fst. unfold has_supplier.
    apply existsb_permutation. exact Hperm. }
  split.
  - eexists. eexists.
    split; [apply (check_supplier_run env user (Some d) Hread) |].
    split; [apply (check_supplier_run env' user (Some d') Hread') |].
    rewrite !check_supplier_ok_isSupplier.
    rewrite (Hsame Api.supplierData_of). reflexivity.
  - intros adminData adminData' Hquery Hquery'.
    eexists. eexists.
    split; [apply (check_roles_run env user (Some d) adminData Hread Hquery) |].
    split; [apply (check_roles_run env' user (Some d') adminData' Hread' Hquery') |].
    unfold roles_result, check_roles_ok. cbn [fst body json prop assoc String.eqb Ascii.eqb Bool.eqb].
    rewrite (Hsame Api.roles_supplierData). reflexivity.
Qed.

Lemma isSupplier_order_independent_example :
  exists r r',
    run (Api.check_supplier example_identity) (env_of two_suppliers [] example_identity)
    = ([COnce "fournisseur"], inr r) /\
    run (Api.check_supplier example_identity)
        (env_of two_suppliers_swapped [] example_identity)
    = ([COnce "fournisseur"], inr r') /\
    prop (body r) "isSupplier" = prop (body r') "isSupplier".
Proof.
  refine (proj1 (isSupplier_order_independent
            (env_of two_suppliers [] example_identity)
            (env_of two_suppliers_swapped [] example_identity)
            example_identity
            (DObj [("k1", DObj [("email", DStr "s@x.com"); ("name", DStr "First")]);
                   ("k2", DObj [("id", DStr "u1"); ("name", DStr "Second")])])
            (DObj [("k2", DObj [("id", DStr "u1"); ("name", DStr "Second")]);
                   ("k1", DObj [("email", DStr "s@x.com"); ("name", DStr "First")])])
            eq_refl eq_refl _)).
  apply perm_swap.
Defined.

(** The record reported does depend on the order: both records match, the
    first one enumerated is kept. *)
Example supplier_depends_on_order :
  prop (prop (body (check_supplier_ok example_env example_identity true
                      (snd (scan_suppliers (email example_identity)
                              (uid example_identity) Api.supplierData_of
                              (fournisseur two_suppliers))))) "supplier") "id"
  = VStr "k1" /\
  prop (prop (body (check_supplier_ok example_env example_identity true
                      (snd (scan_suppliers (email example_identity)
                              (uid example_identity) Api.supplierData_of
                              (fournisseur two_suppliers_swapped))))) "supplier") "id"
  = VStr "k2".
Proof. split; reflexivity. Qed.

(** ** The endpoints against each other *)

Lemma check_admin_run env user adminData :
  equalTo_once env "admin" "email" (email user) = inr adminData ->
  run (Api.check_admin user) env
  = ([CEqualTo "admin" "email" (email user)],
     inr (json (VObj [("isAdmin", VBool (not_null adminData));
                      ("admin", match adminData with
                                | Some d => Api.first_value d
                                | None => VNull
                                end);
                      ("user", user_brief user);
                      ("timestamp", VStr (now env))]))).
Proof.
  intros Hquery.
  unfold run, Api.check_admin, try_catch, bind, await. simpl.
  rewrite Hquery. reflexivity.
Qed.

Lemma check_admin_run_failure env user e :
  equalTo_once env "admin" "email" (email user) = inl e ->
  run (Api.check_admin user) env
  = ([CEqualTo "admin" "email" (email user)], inr (Api.internal_error e)).
Proof.
  intros Hquery.
  unfold run, Api.check_admin, try_catch, bind, await. simpl.
  rewrite Hquery. reflexivity.
Qed.

(** Two objects kept of the same record stay related through the scan. *)
Lemma scan_suppliers_snd_related (P : value -> value -> Prop)
      user_email user_uid keep keep' suppliers :
  (forall k s, P (keep k s) (keep' k s)) ->
  P VNull VNull ->
  P (snd (scan_suppliers user_email user_uid keep suppliers))
    (snd (scan_suppliers user_email user_uid keep' suppliers)).
Proof.
  intros Hkeep Hnull. unfold scan_suppliers.
  destruct suppliers as [d |]; [| exact Hnull].
  destruct (truthy (Some d)); [| exact Hnull].
  induction (for_in d) as [| [k s] rest IH]; simpl.
  - exact Hnull.
  - destruct (supplier_matches user_email user_uid s); [apply Hkeep | exact IH].
Qed.

(** X3.  Once the supplier collection is read, /api/check-roles agrees
    with the single endpoints exactly as far as the admin query is
    answered.  When it is, /api/check-roles answers 200 and reports the
    [isSupplier] of /api/check-supplier and the [isAdmin] of
    /api/check-admin, and its supplier object carries the same id, name
    and departement as the one of /api/check-supplier.  When the query
    fails, as it does for an identity without email, /api/check-roles and
    /api/check-admin answer 500 without roles while /api/check-supplier
    still answers 200 with its [isSupplier]. *)
Theorem check_roles_agrees_with_single_endpoints :
  forall env user suppliers,
    once_value env "fournisseur" = inr suppliers ->
    (forall adminData,
        equalTo_once env "admin" "email" (email user) = inr adminData ->
        exists rr rs ra,
          run (Api.check_roles user) env
          = ([COnce "fournisseur"; CEqualTo "admin" "email" (email user)], inr rr) /\
          run (Api.check_supplier user) env = ([COnce "fournisseur"], inr rs) /\
          run (Api.check_admin user) env
          = ([CEqualTo "admin" "email" (email user)], inr ra) /\
          status rr = 200 /\
          fst (roles_result rr) = prop (body rs) "isSupplier" /\
          snd (roles_result rr) = prop (body ra) "isAdmin" /\
          (forall k, In k ["id"; "name"; "departement"] ->
                     prop (prop (body rr) "supplier") k
                     = prop (prop (body rs) "supplier") k)) /\
    (forall e,
        equalTo_once env "admin" "email" (email user) = inl e ->
        exists rr rs ra,
          run (Api.check_roles user) env
          = ([COnce "fournisseur"; CEqualTo "admin" "email" (email user)], inr rr) /\
          run (Api.check_supplier user) env = ([COnce "fournisseur"], inr rs) /\
          run (Api.check_admin user) env
          = ([CEqualTo "admin" "email" (email user)], inr ra) /\
          status rr = 500 /\ roles_result rr = (VUndefined, VUndefined) /\
          status ra = 500 /\ prop (body ra) "isAdmin" = VUndefined /\
          status rs = 200 /\
          prop (body rs) "isSupplier"
          = VBool (has_supplier (email user) (uid user) suppliers)).
Proof.
  intros env user suppliers Hread. split.
  - intros adminData Hquery.
    eexists. eexists. eexists.
    split; [apply (check_roles_run env user suppliers adminData Hread Hquery) |].
    split; [apply (check_supplier_run env user suppliers Hread) |].
    split; [apply (check_admin_run env user adminData Hquery) |].
    split; [reflexivity |].
    rewrite check_supplier_ok_isSupplier, check_supplier_ok_supplier.
    unfold roles_result, check_roles_ok.
    cbn [fst snd body json prop assoc String.eqb Ascii.eqb Bool.eqb].
    split; [| split].
    + rewrite !scan_suppliers_fst. reflexivity.
    + reflexivity.
    + apply (scan_suppliers_snd_related
               (fun a b => forall k, In k ["id"; "name"; "departement"] ->
                                     prop a k = prop b k)).
      * intros key s k [<- | [<- | [<- | []]]]; reflexivity.
      * intros k _. reflexivity.
  - intros e Hquery.
    eexists. eexists. eexists.
    split; [apply (check_roles_run_query_failure env user suppliers e Hread Hquery) |].
    split; [apply (check_supplier_run env user suppliers Hread) |].
    split; [apply (check_admin_run_failure env user e Hquery) |].
    rewrite check_supplier_ok_isSupplier, scan_suppliers_fst.
    repeat split.
Qed.

Lemma check_roles_agrees_with_single_endpoints_example :
  exists rr rs ra,
    run (Api.check_roles no_email_identity)
        (env_of lower_store [] no_email_identity)
    = ([COnce "fournisseur"; CEqualTo "admin" "email" None], inr rr) /\
    run (Api.check_supplier no_email_identity)
        (env_of lower_store [] no_email_identity)
    = ([COnce "fournisseur"], inr rs) /\
    run (Api.check_admin no_email_identity)
        (env_of lower_store [] no_email_identity)
    = ([CEqualTo "admin" "email" None], inr ra) /\
    status rr = 500 /\ roles_result rr = (VUndefined, VUndefined) /\
    status ra = 500 /\ prop (body ra) "isAdmin" = VUndefined /\
    status rs = 200 /\
    prop (body rs) "isSupplier" = VBool false.
Proof.
  apply (proj2 (check_roles_agrees_with_single_endpoints
                  (env_of lower_store [] no_email_identity) no_email_identity
                  (fournisseur lower_store) eq_refl)
           (Error None "Query.equalTo failed: value is undefined")).
  reflexivity.
Defined.

(** The same on the example, where the query is answered. *)
Example check_roles_agrees_on_example :
  exists rr rs ra,
    run (Api.check_roles example_identity) example_env
    = ([COnce "fournisseur"; CEqualTo "admin" "email" (Some "s@x.com")], inr rr) /\
    run (Api.check_supplier example_identity) example_env
    = ([COnce "fournisseur"], inr rs) /\
    run (Api.check_admin example_identity) example_env
    = ([CEqualTo "admin" "email" (Some "s@x.com")], inr ra) /\
    status rr = 200 /\
    fst (roles_result rr) = prop (body rs) "isSupplier" /\
    snd (roles_result rr) = prop (body ra) "isAdmin".
Proof.
  eexists. eexists. eexists. repeat split.
Qed.

Lemma ServerJs_is_supplier user d :
  ServerJs.is_supplier user d
  = has_supplier (token_email user) (token_uid user) (Some d).
Proof.
  unfold ServerJs.is_supplier. rewrite scan_fst. apply orb_false_r.
Qed.

Lemma ServerJs_check_roles_run env user suppliers adminData :
  once_value env "fournisseur" = inr suppliers ->
  equalTo_once env "admin" "email" (token_email user) = inr adminData ->
  run (ServerJs.check_roles user) env
  = ([COnce "fournisseur"; CEqualTo "admin" "email" (token_email user)],
     inr (json (VObj [("isSupplier",
                       VBool (has_supplier (token_email user) (token_uid user)
                                           suppliers));
                      ("isAdmin", VBool (not_null adminData));
                      ("user", VObj [("uid", VStr (token_uid user));
                                     ("email", of_opt_string (token_email user))])]))).
Proof.
  intros Hread Hquery.
  unfold run, ServerJs.check_roles, try_catch, bind, await. simpl.
  rewrite Hread. simpl. rewrite Hquery. simpl.
  destruct suppliers as [d |]; [| reflexivity].
  destruct (truthy (Some d)) eqn:Ht.
  - rewrite (ServerJs_is_supplier user d). reflexivity.
  - unfold has_supplier. rewrite (falsy_for_in d Ht). reflexivity.
Qed.

(** X4.  The two versions of /api/check-roles agree: for the same uid and
    email and the same answers of the store they issue the same lookups
    and report the same status, the same [isSupplier] and the same
    [isAdmin].  When a lookup fails both answer 500 and report neither
    role; when both lookups are answered both answer 200 and report
    whether some supplier record matches and whether the admin query
    returned a record. *)
Theorem check_roles_versions_agree :
  forall env user,
    exists log rS rA,
      run (ServerJs.check_roles (token_of user)) env = (log, inr rS) /\
      run (Api.check_roles user) env = (log, inr rA) /\
      status rS = status rA /\
      prop (body rS) "isSupplier" = fst (roles_result rA) /\
      prop (body rS) "isAdmin" = snd (roles_result rA) /\
      (lookup_fails env user ->
       status rS = 500 /\ status rA = 500 /\
       prop (body rS) "isSupplier" = VUndefined /\
       prop (body rS) "isAdmin" = VUndefined /\
       roles_result rA = (VUndefined, VUndefined)) /\
      (forall suppliers adminData,
          once_value env "fournisseur" = inr suppliers ->
          equalTo_once env "admin" "email" (email user) = inr adminData ->
          status rS = 200 /\ status rA = 200 /\
          roles_result rA
          = (VBool (has_supplier (email user) (uid user) suppliers),
             VBool (not_null adminData))).
Proof.
  intros env user.
  destruct (once_value env "fournisseur") as [e | suppliers] eqn:Hread.
  - exists [COnce "fournisseur"]. eexists. eexists.
    split; [| split; [apply (check_roles_run_read_failure env user e Hread) |]].
    + unfold run, ServerJs.check_roles, try_catch, bind, await. simpl.
      rewrite Hread. reflexivity.
    + split; [reflexivity |]. split; [reflexivity |]. split; [reflexivity |].
      split.
      * intros _. repeat split.
      * intros suppliers adminData Hs _. discriminate.
  - destruct (equalTo_once env "admin" "email" (email user))
      as [e | adminData] eqn:Hquery.
    + exists [COnce "fournisseur"; CEqualTo "admin" "email" (email user)].
      eexists. eexists.
      split; [| split; [apply (check_roles_run_query_failure
                                 env user suppliers e Hread Hquery) |]].
      * unfold run, ServerJs.check_roles, try_catch, bind, await. simpl.
        rewrite Hread. simpl. rewrite Hquery. reflexivity.
      * split; [reflexivity |]. split; [reflexivity |]. split; [reflexivity |].
        split.
        -- intros _. repeat split.
        -- intros suppliers' adminData _ Ha. discriminate.
    + exists [COnce "fournisseur"; CEqualTo "admin" "email" (email user)].
      eexists. eexists.
      split; [apply (ServerJs_check_roles_run env (token_of user)
                       suppliers adminData Hread Hquery) |].
      split; [apply (check_roles_run env user suppliers adminData Hread Hquery) |].
      unfold roles_result, check_roles_ok.
      cbn [fst snd body json prop assoc String.eqb Ascii.eqb Bool.eqb status token_of
           token_email token_uid].
      rewrite scan_suppliers_fst.
      split; [reflexivity |]. split; [reflexivity |]. split; [reflexivity |].
      split.
      * unfold lookup_fails. intros [[e He] | [e He]]; congruence.
      * intros suppliers' adminData' Hs Ha.
        injection Hs as <-. injection Ha as <-. repeat split.
Qed.

Lemma check_roles_versions_agree_example :
  exists log rS rA,
    run (ServerJs.check_roles (token_of example_identity))
        (env_down example_identity) = (log, inr rS) /\
    run (Api.check_roles example_identity) (env_down example_identity)
    = (log, inr rA) /\
    status rS = 500 /\ status rA = 500 /\
    prop (body rS) "isSupplier" = VUndefined /\
    prop (body rS) "isAdmin" = VUndefined /\
    roles_result rA = (VUndefined, VUndefined).
Proof.
  destruct (check_roles_versions_agree (env_down example_identity) example_identity)
    as [log [rS [rA [HS [HA [_ [_ [_ [Hfail _]]]]]]]]].
  exists log, rS, rA. split; [exact HS |]. split; [exact HA |].
  apply Hfail. left. eexists. reflexivity.
Defined.

(** ** The supplier guard *)

Lemma requireSupplier_run env user suppliers :
  once_value env "fournisseur" = inr suppliers ->
  run (Api.requireSupplier (Some user)) env
  = ([COnce "fournisseur"],
     inr (if has_supplier (email user) (uid user) suppliers
          then Next {| Api.ctx_user := user; Api.ctx_isAdmin := false;
                       Api.ctx_isSupplier := true;
                       Api.ctx_supplierData :=
                         snd (scan_suppliers (email user) (uid user)
                                             Api.spread_supplier suppliers) |}
          else Respond (status_json 403
                 (VObj [("error", VStr "Accès refusé");
                        ("message",
                         VStr "Vous n'avez pas les permissions de fournisseur")])))).
Proof.
  intros Hread.
  unfold run, Api.requireSupplier, try_catch, bind, await. simpl. rewrite Hread.
  rewrite <- (scan_suppliers_fst (email user) (uid user) Api.spread_supplier).
  destruct (scan_suppliers (email user) (uid user) Api.spread_supplier suppliers)
    as [isSupplier supplierData].
  destruct isSupplier; reflexivity.
Qed.

(** X5.  The supplier guard and /api/check-supplier decide alike: over the
    same collection the guard calls [next()], with the user marked as
    supplier, exactly when the endpoint reports [isSupplier = true], and
    answers 403 exactly when it reports false. *)
Theorem requireSupplier_agrees_with_check_supplier :
  forall env user suppliers,
    once_value env "fournisseur" = inr suppliers ->
    exists rs,
      run (Api.check_supplier user) env = ([COnce "fournisseur"], inr rs) /\
      ((prop (body rs) "isSupplier" = VBool true /\
        exists ctx,
          run (Api.requireSupplier (Some user)) env
          = ([COnce "fournisseur"], inr (Next ctx)) /\
          Api.ctx_user ctx = user /\ Api.ctx_isSupplier ctx = true) \/
       (prop (body rs) "isSupplier" = VBool false /\
        exists r,
          run (Api.requireSupplier (Some user)) env
          = ([COnce "fournisseur"], inr (Respond r)) /\
          status r = 403)).
Proof.
  intros env user suppliers Hread.
  eexists. split; [apply (check_supplier_run env user suppliers Hread) |].
  rewrite check_supplier_ok_isSupplier, scan_suppliers_fst.
  rewrite (requireSupplier_run env user suppliers Hread).
  destruct (has_supplier (email user) (uid user) suppliers).
  - left. split; [reflexivity |]. eexists. repeat split.
  - right. split; [reflexivity |]. eexists. repeat split.
Qed.

Lemma requireSupplier_agrees_with_check_supplier_example :
  exists rs,
    run (Api.check_supplier example_identity) example_env
    = ([COnce "fournisseur"], inr rs) /\
    ((prop (body rs) "isSupplier" = VBool true /\
      exists ctx,
        run (Api.requireSupplier (Some example_identity)) example_env
        = ([COnce "fournisseur"], inr (Next ctx)) /\
        Api.ctx_user ctx = example_identity /\ Api.ctx_isSupplier ctx = true) \/
     (prop (body rs) "isSupplier" = VBool false /\
      exists r,
        run (Api.requireSupplier (Some example_identity)) example_env
        = ([COnce "fournisseur"], inr (Respond r)) /\
        status r = 403)).
Proof.
  apply (requireSupplier_agrees_with_check_supplier example_env example_identity
           (fournisseur example_store)).
  reflexivity.
Defined.

Lemma assoc_set_prop (obj : list (string * value)) (key k : string) (v : value) :
  assoc k (Api.set_prop obj key v)
  = if String.eqb key k then Some v else assoc k obj.
Proof.
  induction obj as [| [k0 x0] rest IH]; simpl.
  - reflexivity.
  - destruct (String.eqb k0 key) eqn:H0; simpl.
    + apply String.eqb_eq in H0. subst k0.
      destruct (String.eqb key k); reflexivity.
    + rewrite IH. destruct (String.eqb k0 k) eqn:Hk; [| reflexivity].
      apply String.eqb_eq in Hk. subst k0. rewrite String.eqb_sym, H0.
      reflexivity.
Qed.

Lemma assoc_not_in {A : Type} (k : string) (l : list (string * A)) :
  ~ In k (map fst l) -> assoc k l = None.
Proof.
  induction l as [| [k0 a] rest IH]; simpl; intros Hnot.
  - reflexivity.
  - destruct (String.eqb k0 k) eqn:Hk.
    + apply String.eqb_eq in Hk. elim Hnot. left. exact Hk.
    + apply IH. intros Hin. apply Hnot. right. exact Hin.
Qed.

Lemma assoc_spread (children : list (string * data)) :
  NoDup (map fst children) ->
  forall (init : list (string * value)) (k : string),
    assoc k (fold_left
               (fun obj (kv : string * data) =>
                  Api.set_prop obj (fst kv) (of_data (snd kv)))
               children init)
    = match assoc k children with
      | Some c => Some (of_data c)
      | None => assoc k init
      end.
Proof.
  induction children as [| [k0 c0] rest IH]; intros Hnd init k; simpl.
  - reflexivity.
  - inversion Hnd as [| ? ? Hnot Hrest]; subst.
    rewrite (IH Hrest). rewrite assoc_set_prop.
    destruct (String.eqb k0 k) eqn:Hk.
    + apply String.eqb_eq in Hk. subst k0.
      rewrite (assoc_not_in k rest Hnot). reflexivity.
    + reflexivity.
Qed.

Lemma spread_supplier_prop (supplierId : string) (children : list (string * data))
      (name : string) :
  NoDup (map fst children) ->
  prop (Api.spread_supplier supplierId (DObj children)) name
  = match assoc name children with
    | Some c => of_data c
    | None => if String.eqb "id" name then VStr supplierId else VUndefined
    end.
Proof.
  intros Hnd. unfold Api.spread_supplier, prop, for_in.
  rewrite (assoc_spread children Hnd).
  destruct (assoc name children); [reflexivity |].
  cbn [assoc]. destruct (String.eqb "id" name); reflexivity.
Qed.

(** X6.  When the guard lets a supplier through, the [supplierData] it
    attaches to the request carries every stored field of the first
    matching record with its stored value; its [id] is the record's own
    [id] field when the record has one and the registry key otherwise, and
    it has no other property. *)
Theorem requireSupplier_attaches_record :
  forall env user d before supplierId children after,
    once_value env "fournisseur" = inr (Some d) ->
    for_in d = (before ++ (supplierId, DObj children) :: after)%list ->
    (forall k s, In (k, s) before ->
                 supplier_matches (email user) (uid user) s = false) ->
    supplier_matches (email user) (uid user) (DObj children) = true ->
    NoDup (map fst children) ->
    exists ctx,
      run (Api.requireSupplier (Some user)) env
      = ([COnce "fournisseur"], inr (Next ctx)) /\
      forall name,
        prop (Api.ctx_supplierData ctx) name
        = match field (DObj children) name with
          | Some c => of_data c
          | None => if String.eqb "id" name then VStr supplierId else VUndefined
          end.
Proof.
  intros env user d before supplierId children after Hread Hd Hno Hyes Hnd.
  rewrite (requireSupplier_run env user (Some d) Hread).
  pose proof (@scan_suppliers_first_match (email user) (uid user)
                Api.spread_supplier d before supplierId (DObj children) after
                Hd Hno Hyes) as Hscan.
  rewrite <- (scan_suppliers_fst (email user) (uid user) Api.spread_supplier).
  rewrite Hscan. simpl fst. simpl snd. cbv iota.
  eexists. split; [reflexivity |].
  intros name. simpl Api.ctx_supplierData.
  apply spread_supplier_prop. exact Hnd.
Qed.

Lemma requireSupplier_attaches_record_example :
  exists ctx,
    run (Api.requireSupplier (Some example_identity))
        (env_of id_store [] example_identity)
    = ([COnce "fournisseur"], inr (Next ctx)) /\
    forall name,
      prop (Api.ctx_supplierData ctx) name
      = match field (DObj [("id", DStr "u1"); ("name", DStr "Acme")]) name with
        | Some c => of_data c
        | None => if String.eqb "id" name then VStr "k1" else VUndefined
        end.
Proof.
  apply (requireSupplier_attaches_record (env_of id_store [] example_identity)
           example_identity
           (DObj [("k1", DObj [("id", DStr "u1"); ("name", DStr "Acme")])])
           [] "k1" [("id", DStr "u1"); ("name", DStr "Acme")] []).
  - reflexivity.
  - reflexivity.
  - intros k s [].
  - reflexivity.
  - repeat constructor; simpl; intuition discriminate.
Defined.

(** ** Authentication, continued *)

Lemma authenticate_run_success env req decodedToken user :
  no_bearer (authorization req) = false ->
  verifyIdToken env (bearer_token (authorization req)) = inr decodedToken ->
  getUser env (token_uid decodedToken) = inr user ->
  run (Api.authenticateFirebaseUser req) env
  = ([CVerifyIdToken (bearer_token (authorization req));
      CGetUser (token_uid decodedToken)],
     inr (Next user)).
Proof.
  intros Hnb Hverify Hget.
  unfold run, Api.authenticateFirebaseUser, try_catch, bind, await.
  rewrite Hnb. simpl. rewrite Hverify. simpl. rewrite Hget. simpl.
  destruct user. reflexivity.
Qed.

(** X7.  With a well-formed header, a token the verifier accepts and a
    user the identity provider knows, the middleware calls [next()] with
    the record of that user: uid, email and the other fields of [req.user]
    are those of the user record fetched by the token's uid, not the
    claims of the token.  The first version verifies the token only and
    passes on the token's uid and email, without fetching the user. *)
Theorem authenticate_success :
  forall env req decodedToken user,
    no_bearer (authorization req) = false ->
    verifyIdToken env (bearer_token (authorization req)) = inr decodedToken ->
    getUser env (token_uid decodedToken) = inr user ->
    run (Api.authenticateFirebaseUser req) env
    = ([CVerifyIdToken (bearer_token (authorization req));
        CGetUser (token_uid decodedToken)],
       inr (Next user)) /\
    run (ServerJs.authenticateUser req) env
    = ([CVerifyIdToken (bearer_token (authorization req))],
       inr (Next decodedToken)) /\
    (forall handler,
        run (Api.route handler req) env
        = handler user env [CVerifyIdToken (bearer_token (authorization req));
                            CGetUser (token_uid decodedToken)]).
Proof.
  intros env req decodedToken user Hnb Hverify Hget.
  pose proof (authenticate_run_success env req decodedToken user Hnb Hverify Hget)
    as Hauth.
  split; [exact Hauth | split].
  - unfold run, ServerJs.authenticateUser, try_catch, bind, await.
    rewrite Hnb. simpl. rewrite Hverify. simpl.
    destruct decodedToken. reflexivity.
  - intros handler. unfold run, Api.route, bind in *. rewrite Hauth. reflexivity.
Qed.

Lemma authenticate_success_example :
  run (Api.authenticateFirebaseUser (bearer_request "abc")) example_env
  = ([CVerifyIdToken (Some "abc"); CGetUser "u1"], inr (Next example_identity)).
Proof.
  apply (authenticate_success example_env (bearer_request "abc")
           (token_of example_identity) example_identity);
    reflexivity.
Defined.

(** X8.  Whatever the request and whatever the external services answer,
    the middleware never lets an error escape: it either calls [next()]
    or answers 401 or 404, and it answers 404 only when the verifier or
    the user lookup failed with the code auth/user-not-found.  It never
    answers 200, 403 or 500 itself. *)
Theorem authenticate_answers_401_or_404 :
  forall env req,
    exists log o,
      run (Api.authenticateFirebaseUser req) env = (log, inr o) /\
      match o with
      | Next _ => True
      | Respond r =>
          status r = 401 \/
          (status r = 404 /\
           prop (body r) "code" = VStr "auth/user-not-found")
      end.
Proof.
  intros env req.
  assert (Hfail : forall e,
             status (Api.auth_failure e) = 401 \/
             (status (Api.auth_failure e) = 404 /\
              prop (body (Api.auth_failure e)) "code" = VStr "auth/user-not-found")).
  { intros e. unfold Api.auth_failure.
    destruct (code_is e "auth/id-token-expired"); [left; reflexivity |].
    destruct (code_is e "auth/id-token-revoked"); [left; reflexivity |].
    destruct (code_is e "auth/user-not-found") eqn:Hnf; [| left; reflexivity].
    right. apply code_is_true in Hnf. split; [reflexivity |].
    simpl. rewrite Hnf. reflexivity. }
  unfold run, Api.authenticateFirebaseUser, try_catch, bind, await.
  destruct (no_bearer (authorization req)); simpl.
  - eexists. eexists. split; [reflexivity |]. left. reflexivity.
  - destruct (verifyIdToken env (bearer_token (authorization req)))
      as [e | decodedToken]; simpl.
    + eexists. eexists. split; [reflexivity |]. apply Hfail.
    + destruct (getUser env (token_uid decodedToken)) as [e | user]; simpl.
      * eexists. eexists. split; [reflexivity |]. apply Hfail.
      * eexists. eexists. split; [reflexivity |]. exact I.
Qed.

(** ** The bearer token *)

Lemma append_snoc (cur rest : string) (c : ascii) :
  ((cur ++ String c EmptyString) ++ rest)%string = (cur ++ String c rest)%string.
Proof.
  induction cur as [| c0 cur IH]; simpl.
  - reflexivity.
  - rewrite IH. reflexivity.
Qed.

Lemma append_empty (s : string) : (s ++ "")%string = s.
Proof.
  induction s as [| c s IH]; simpl; [reflexivity | rewrite IH; reflexivity].
Qed.

(** A string that starts with the separator holds a space. *)
Lemma prefix_bearer_space (s : string) :
  String.prefix "Bearer " s = true -> In " "%char (list_ascii_of_string s).
Proof.
  destruct s as [| c1 [| c2 [| c3 [| c4 [| c5 [| c6 [| c7 s]]]]]]];
    cbn [String.prefix list_ascii_of_string];
    intros H;
    repeat match type of H with
           | context [ascii_dec ?a ?b] => destruct (ascii_dec a b)
           end;
    try discriminate H.
  subst. cbn [In]. auto 10.
Qed.

Lemma split_go_no_space (token cur : string) :
  ~ In " "%char (list_ascii_of_string token) ->
  split_go "Bearer " 0 cur token = [(cur ++ token)%string].
Proof.
  revert cur. induction token as [| c rest IH]; intros cur Hno.
  - simpl. rewrite append_empty. reflexivity.
  - change (split_go "Bearer " 0 cur (String c rest))
      with (if String.prefix "Bearer " (String c rest)
            then cur :: split_go "Bearer " (String.length "Bearer " - 1) "" rest
            else split_go "Bearer " 0 (cur ++ String c EmptyString) rest).
    destruct (String.prefix "Bearer " (String c rest)) eqn:Hp.
    + elim Hno. apply prefix_bearer_space. exact Hp.
    + rewrite IH.
      * rewrite append_snoc. reflexivity.
      * intros Hin. apply Hno. right. exact Hin.
Qed.

Lemma prefix_empty (s : string) : String.prefix "" s = true.
Proof. destruct s; reflexivity. Qed.

Lemma bearer_token_no_space (token : string) :
  ~ In " "%char (list_ascii_of_string token) ->
  bearer_token (Some ("Bearer " ++ token)%string) = Some token.
Proof.
  intros Hno. unfold bearer_token, split_on.
  change (split_go "Bearer " 0 "" ("Bearer " ++ token)%string)
    with (if String.prefix "" token
          then "" :: split_go "Bearer " 0 "" token
          else split_go "Bearer " 0 "Bearer " token).
  rewrite prefix_empty.
  rewrite (split_go_no_space token "" Hno). reflexivity.
Qed.

Lemma no_bearer_prefixed (token : string) :
  no_bearer (Some ("Bearer " ++ token)%string) = false.
Proof.
  unfold no_bearer, starts_with.
  change (String.prefix "Bearer " ("Bearer " ++ token)%string)
    with (String.prefix "" token).
  rewrite prefix_empty. reflexivity.
Qed.

(** X9.  A token without a space, sent as [Authorization: Bearer <token>],
    passes the header test and reaches the verifier unchanged: the first
    call of the middleware is [verifyIdToken(token)]. *)
Theorem bearer_token_reaches_verifier :
  forall env token,
    ~ In " "%char (list_ascii_of_string token) ->
    no_bearer (authorization (bearer_request token)) = false /\
    bearer_token (authorization (bearer_request token)) = Some token /\
    (exists rest o,
        run (Api.authenticateFirebaseUser (bearer_request token)) env
        = (CVerifyIdToken (Some token) :: rest, o)) /\
    (exists rest o,
        run (ServerJs.authenticateUser (bearer_request token)) env
        = (CVerifyIdToken (Some token) :: rest, o)).
Proof.
  intros env token Hno.
  assert (Hnb : no_bearer (authorization (bearer_request token)) = false)
    by apply no_bearer_prefixed.
  pose proof (bearer_token_no_space token Hno) as Htok.
  split; [exact Hnb | split; [exact Htok | split]].
  - unfold run, Api.authenticateFirebaseUser, try_catch, bind, await.
    rewrite Hnb. change (authorization (bearer_request token))
      with (Some ("Bearer " ++ token)%string).
    rewrite Htok. simpl.
    destruct (verifyIdToken env (Some token)) as [e | decodedToken]; simpl.
    + eexists. eexists. reflexivity.
    + destruct (getUser env (token_uid decodedToken)); simpl;
        eexists; eexists; reflexivity.
  - unfold run, ServerJs.authenticateUser, try_catch, bind, await.
    rewrite Hnb. change (authorization (bearer_request token))
      with (Some ("Bearer " ++ token)%string).
    rewrite Htok. simpl.
    destruct (verifyIdToken env (Some token)); simpl;
      eexists; eexists; reflexivity.
Qed.

Lemma bearer_token_reaches_verifier_example :
  bearer_token (authorization (bearer_request "eyJhbGciOi.eyJzdWIi.c2ln"))
  = Some "eyJhbGciOi.eyJzdWIi.c2ln".
Proof.
  refine (proj1 (proj2 (bearer_token_reaches_verifier example_env
                          "eyJhbGciOi.eyJzdWIi.c2ln" _))).
  simpl. intuition discriminate.
Defined.

(** A token that itself holds the separator is cut at it. *)
Example bearer_token_cut :
  bearer_token (Some "Bearer aBearer b") = Some "a".
Proof. reflexivity. Qed.

(** ** The administrators' route *)

Lemma authenticate_cases req env log res :
  run (Api.authenticateFirebaseUser req) env = (log, res) ->
  (exists r, res = inr (Respond r) /\ forall c, In c log -> auth_call c) \/
  (exists decodedToken user,
      verifyIdToken env (bearer_token (authorization req)) = inr decodedToken /\
      getUser env (token_uid decodedToken) = inr user /\
      res = inr (Next user) /\
      forall c, In c log -> auth_call c).
Proof.
  destruct (no_bearer (authorization req)) eqn:Hnb.
  - unfold run, Api.authenticateFirebaseUser, try_catch, bind, await.
    rewrite Hnb. simpl. intros H. injection H as <- <-.
    left. eexists. split; [reflexivity |]. intros c [].
  - destruct (verifyIdToken env (bearer_token (authorization req)))
      as [e | decodedToken] eqn:Hverify.
    + unfold run, Api.authenticateFirebaseUser, try_catch, bind, await.
      rewrite Hnb. simpl. rewrite Hverify. simpl. intros H. injection H as <- <-.
      left. eexists. split; [reflexivity |].
      intros c [<- | []]. exact I.
    + destruct (getUser env (token_uid decodedToken)) as [e | user] eqn:Hget.
      * unfold run, Api.authenticateFirebaseUser, try_catch, bind, await.
        rewrite Hnb. simpl. rewrite Hverify. simpl. rewrite Hget. simpl.
        intros H. injection H as <- <-.
        left. eexists. split; [reflexivity |].
        intros c [<- | [<- | []]]; exact I.
      * rewrite (authenticate_run_success env req decodedToken user Hnb Hverify Hget).
        intros H. injection H as <- <-.
        right. exists decodedToken, user.
        split; [assumption || reflexivity |].
        split; [assumption || reflexivity |].
        split; [reflexivity |].
        intros c [<- | [<- | []]]; exact I.
Qed.

Lemma requireAdmin_cases user env log0 log res :
  Api.requireAdmin (Some user) env log0 = (log, res) ->
  log = (log0 ++ [CEqualTo "admin" "email" (email user)])%list /\
  ((exists r, res = inr (Respond r)) \/
   (exists adminData ctx,
       equalTo_once env "admin" "email" (email user) = inr adminData /\
       truthy adminData = true /\
       res = inr (Next ctx))).
Proof.
  unfold Api.requireAdmin, try_catch, bind, await. simpl.
  destruct (equalTo_once env "admin" "email" (email user)) as [e | adminData];
    simpl.
  - intros H. injection H as <- <-. split; [reflexivity |]. left. eauto.
  - destruct (truthy adminData) eqn:Ht; simpl; intros H; injection H as <- <-;
      (split; [reflexivity |]).
    + right. eauto.
    + left. eauto.
Qed.

Lemma admin_users_log env log0 log res :
  Api.admin_users env log0 = (log, res) ->
  log = (log0 ++ [CListUsers 100])%list.
Proof.
  unfold Api.admin_users, try_catch, bind, await.
  destruct (listUsers env 100); simpl; intros H; injection H as <- _; reflexivity.
Qed.

(** X10.  On GET /api/admin/users the users are listed only for an
    administrator: whenever a run of the route calls [listUsers], the
    token was accepted, the user was found and the admin query on that
    user's email returned a record; and the call asks for 100 users. *)
Theorem admin_route_lists_only_for_admins :
  forall env req log res n,
    run (Api.route_admin_users req) env = (log, res) ->
    In (CListUsers n) log ->
    n = 100 /\
    exists decodedToken user adminData,
      verifyIdToken env (bearer_token (authorization req)) = inr decodedToken /\
      getUser env (token_uid decodedToken) = inr user /\
      equalTo_once env "admin" "email" (email user) = inr adminData /\
      truthy adminData = true.
Proof.
  intros env req log res n Hrun Hin.
  unfold run, Api.route_admin_users, bind in Hrun.
  destruct (Api.authenticateFirebaseUser req env []) as [log1 res1] eqn:Hauth.
  apply authenticate_cases in Hauth.
  destruct Hauth as [[r [-> Hlog1]] | [decodedToken [user [Hv [Hg [-> Hlog1]]]]]].
  - unfold ret in Hrun. injection Hrun as <- _.
    elim (Hlog1 _ Hin).
  - destruct (Api.requireAdmin (Some user) env log1) as [log2 res2] eqn:Hguard.
    apply requireAdmin_cases in Hguard.
    destruct Hguard as [-> [[r ->] | [adminData [ctx [Hq [Ht ->]]]]]].
    + unfold ret in Hrun. injection Hrun as <- _.
      apply in_app_or in Hin. destruct Hin as [Hin | [Hin | []]].
      * elim (Hlog1 _ Hin).
      * discriminate.
    + apply admin_users_log in Hrun. subst log.
      apply in_app_or in Hin. destruct Hin as [Hin | [Hin | []]].
      * apply in_app_or in Hin. destruct Hin as [Hin | [Hin | []]].
        -- elim (Hlog1 _ Hin).
        -- discriminate.
      * injection Hin as <-. split; [reflexivity |].
        exists decodedToken, user, adminData. auto.
Qed.

Lemma admin_route_lists_only_for_admins_example :
  100 = 100 /\
  exists decodedToken user adminData,
    verifyIdToken (env_of admin_store (directory 3) example_identity)
                  (bearer_token (authorization (bearer_request "abc")))
    = inr decodedToken /\
    getUser (env_of admin_store (directory 3) example_identity)
            (token_uid decodedToken) = inr user /\
    equalTo_once (env_of admin_store (directory 3) example_identity)
                 "admin" "email" (email user) = inr adminData /\
    truthy adminData = true.
Proof.
  apply (admin_route_lists_only_for_admins
           (env_of admin_store (directory 3) example_identity)
           (bearer_request "abc")
           (fst (run (Api.route_admin_users (bearer_request "abc"))
                     (env_of admin_store (directory 3) example_identity)))
           (snd (run (Api.route_admin_users (bearer_request "abc"))
                     (env_of admin_store (directory 3) example_identity)))
           100).
  - reflexivity.
  - vm_compute. auto.
Defined.

(** ** Health and start-up *)

(** X11.  GET /api/health answers 200 with [status: "OK"] whether or not
    the database answers: [database] is "connected" when the probe of
    [.info/connected] succeeds, "error" with the message under
    [databaseError] when it fails, and "unknown", without any probe, when
    Firebase was not initialised.  A failing database never turns the
    answer into a 500. *)
Theorem health_always_ok :
  forall env uptime memory,
    (forall v,
        once_value env ".info/connected" = inr v ->
        exists r,
          run (Api.health true uptime memory) env
          = ([COnce ".info/connected"], inr r) /\
          status r = 200 /\
          prop (body r) "status" = VStr "OK" /\
          prop (body r) "database" = VStr "connected" /\
          prop (body r) "databaseError" = VUndefined) /\
    (forall e,
        once_value env ".info/connected" = inl e ->
        exists r,
          run (Api.health true uptime memory) env
          = ([COnce ".info/connected"], inr r) /\
          status r = 200 /\
          prop (body r) "status" = VStr "OK" /\
          prop (body r) "database" = VStr "error" /\
          prop (body r) "databaseError" = VStr (message e)) /\
    (exists r,
        run (Api.health false uptime memory) env = ([], inr r) /\
        status r = 200 /\
        prop (body r) "status" = VStr "OK" /\
        prop (body r) "firebase" = VStr "disconnected" /\
        prop (body r) "database" = VStr "unknown").
Proof.
  intros env uptime memory. split; [| split].
  - intros v Hprobe.
    unfold run, Api.health, try_catch, bind, await, timestamp. simpl.
    rewrite Hprobe. simpl. eexists. repeat split.
  - intros e Hprobe.
    unfold run, Api.health, try_catch, bind, await, timestamp. simpl.
    rewrite Hprobe. simpl. eexists. repeat split.
  - eexists. repeat split.
Qed.

Lemma health_always_ok_example :
  exists r,
    run (Api.health true (VNum 12) (VObj [])) (env_down example_identity)
    = ([COnce ".info/connected"], inr r) /\
    status r = 200 /\
    prop (body r) "status" = VStr "OK" /\
    prop (body r) "database" = VStr "error" /\
    prop (body r) "databaseError" = VStr "database unavailable".
Proof.
  apply (proj1 (proj2 (health_always_ok (env_down example_identity)
                         (VNum 12) (VObj [])))
           (Error None "database unavailable")).
  reflexivity.
Defined.

(** X12.  The start-up check reports a connection exactly when Firebase is
    initialised and the database probe succeeds.  The probe of the
    identity provider, [listUsers(1)], is made only after the database
    has answered, and its failure does not change the result. *)
Theorem checkFirebaseConnection_result :
  forall env,
    run (Api.checkFirebaseConnection false) env = ([], inr false) /\
    (forall e,
        once_value env ".info/connected" = inl e ->
        run (Api.checkFirebaseConnection true) env
        = ([COnce ".info/connected"], inr false)) /\
    (forall v,
        once_value env ".info/connected" = inr v ->
        run (Api.checkFirebaseConnection true) env
        = ([COnce ".info/connected"; CListUsers 1], inr true)).
Proof.
  intros env. split; [reflexivity | split].
  - intros e Hprobe.
    unfold run, Api.checkFirebaseConnection, try_catch, bind, await. simpl.
    rewrite Hprobe. reflexivity.
  - intros v Hprobe.
    unfold run, Api.checkFirebaseConnection, try_catch, bind, await. simpl.
    rewrite Hprobe. simpl. destruct (listUsers env 1); reflexivity.
Qed.

Lemma checkFirebaseConnection_result_example :
  run (Api.checkFirebaseConnection true) (env_rejecting_users example_identity)
  = ([COnce ".info/connected"; CListUsers 1], inr true).
Proof.
  apply (proj2 (proj2 (checkFirebaseConnection_result
                         (env_rejecting_users example_identity))) None).
  reflexivity.
Defined.

(** ** /api/user/update, continued *)

(** X13.  When the body defines an allowed field and [updateUser] fails,
    /api/user/update answers 500 with the message of the error; the update
    was attempted once, with the filtered object, and is not retried. *)
Theorem user_update_failure :
  forall env user updates e,
    (prop updates "displayName" <> VUndefined \/
     prop updates "photoURL" <> VUndefined) ->
    updateUser env (uid user)
               (picked updates "displayName" ++ picked updates "photoURL")%list
    = inl e ->
    run (Api.user_update user updates) env
    = ([CUpdateUser (uid user)
                    (picked updates "displayName" ++ picked updates "photoURL")%list],
       inr (status_json 500 (VObj [("error", VStr "Erreur interne du serveur");
                                   ("message", VStr (message e))]))).
Proof.
  intros env user updates e Hsome Hupd.
  assert (Hlen : Nat.eqb (List.length (picked updates "displayName"
                                       ++ picked updates "photoURL")%list) 0 = false).
  { unfold picked.
    destruct (is_undefined (prop updates "displayName")) eqn:Hd;
      destruct (is_undefined (prop updates "photoURL")) eqn:Hp;
      try reflexivity.
    apply is_undefined_true in Hd, Hp. destruct Hsome; contradiction. }
  unfold run, Api.user_update, try_catch, bind, await.
  rewrite filter_updates_allowed. rewrite Hlen. simpl. rewrite Hupd. reflexivity.
Qed.

Lemma user_update_failure_example :
  run (Api.user_update example_identity (VObj [("displayName", VStr "Ann")]))
      (env_update_down example_identity)
  = ([CUpdateUser "u1" [("displayName", VStr "Ann")]],
     inr (status_json 500 (VObj [("error", VStr "Erreur interne du serveur");
                                 ("message", VStr "update refused")]))).
Proof.
  apply (user_update_failure (env_update_down example_identity) example_identity
           (VObj [("displayName", VStr "Ann")]) (Error None "update refused")).
  - left. discriminate.
  - reflexivity.
Defined.

(** ** Seeding *)

Lemma seed_loop_all_ok set users written :
  (forall u, In u users -> write_ok set u) ->
  Basic.seed_loop set users written
  = ((written ++ map Basic.user_path users)%list, inr tt).
Proof.
  revert written. induction users as [| u rest IH]; intros written Hok; simpl.
  - rewrite app_nil_r. reflexivity.
  - destruct (Hok u (or_introl eq_refl)) as [x Hx]. rewrite Hx.
    rewrite IH by (intros u' Hin; apply Hok; right; exact Hin).
    rewrite <- app_assoc. reflexivity.
Qed.

Lemma seed_loop_first_failure set before u after written e :
  (forall u', In u' before -> write_ok set u') ->
  set (Basic.user_path u) (Basic.user_value u) = inl e ->
  Basic.seed_loop set (before ++ u :: after)%list written
  = ((written ++ map Basic.user_path before ++ [Basic.user_path u])%list, inl e).
Proof.
  revert written. induction before as [| u0 rest IH]; intros written Hok Hfail; simpl.
  - rewrite Hfail. reflexivity.
  - destruct (Hok u0 (or_introl eq_refl)) as [x Hx]. rewrite Hx.
    rewrite IH; [| intros u' Hin; apply Hok; right; exact Hin | exact Hfail].
    rewrite <- app_assoc. reflexivity.
Qed.

(** X14.  POST /api/users/seed writes the users one after the other, at
    users/1, users/2 and users/3.  When every write succeeds it answers
    200 after the last one; when a write fails it answers 500 with the
    message of that error and the users after the failed one are not
    written.  This holds of the loop for any list of users. *)
Theorem seed_stops_at_first_failure :
  forall set,
    map Basic.user_path Basic.seed_users = ["users/1"; "users/2"; "users/3"] /\
    (forall users,
        (forall u, In u users -> write_ok set u) ->
        Basic.seed_with users set
        = (map Basic.user_path users,
           json (VObj [("message", VStr "✅ Utilisateurs ajoutés dans Firebase")]))) /\
    (forall before u after e,
        (forall u', In u' before -> write_ok set u') ->
        set (Basic.user_path u) (Basic.user_value u) = inl e ->
        Basic.seed_with (before ++ u :: after)%list set
        = ((map Basic.user_path before ++ [Basic.user_path u])%list,
           status_json 500 (VObj [("error", VStr (message e))]))).
Proof.
  intros set. split; [reflexivity | split].
  - intros users Hok. unfold Basic.seed_with.
    rewrite (seed_loop_all_ok set users [] Hok). reflexivity.
  - intros before u after e Hok Hfail. unfold Basic.seed_with.
    rewrite (seed_loop_first_failure set before u after [] e Hok Hfail).
    reflexivity.
Qed.

Lemma seed_stops_at_first_failure_example :
  Basic.seed set_failing_on_bob
  = (["users/1"; "users/2"],
     status_json 500 (VObj [("error", VStr "write refused")])).
Proof.
  apply (proj2 (proj2 (seed_stops_at_first_failure set_failing_on_bob))
           [ {| Basic.seed_id := 1; Basic.seed_name := "Alice";
                Basic.seed_email := "alice@example.com" |} ]
           {| Basic.seed_id := 2; Basic.seed_name := "Bob";
              Basic.seed_email := "bob@example.com" |}
           [ {| Basic.seed_id := 3; Basic.seed_name := "Charlie";
                Basic.seed_email := "charlie@example.com" |} ]
           (Error None "write refused")).
  - intros u' [<- | []]. exists tt. reflexivity.
  - reflexivity.
Defined.

(** ** The admin guard and /api/check-admin *)

Lemma requireAdmin_run env user adminData :
  equalTo_once env "admin" "email" (email user) = inr adminData ->
  run (Api.requireAdmin (Some user)) env
  = ([CEqualTo "admin" "email" (email user)],
     inr (if truthy adminData
          then Next {| Api.ctx_user := user; Api.ctx_isAdmin := true;
                       Api.ctx_isSupplier := false;
                       Api.ctx_supplierData := VUndefined |}
          else Respond (status_json 403
                 (VObj [("error", VStr "Accès refusé");
                        ("message",
                         VStr "Vous n'avez pas les permissions d'administrateur")])))).
Proof.
  intros Hquery.
  unfold run, Api.requireAdmin, try_catch, bind, await. simpl.
  rewrite Hquery. simpl. destruct (truthy adminData); reflexivity.
Qed.

(** X15.  The admin guard and /api/check-admin decide alike on what a
    query returns (null, or an object of the matching children): the guard
    calls [next()] with the user marked as admin exactly when the endpoint
    reports [isAdmin = true], and answers 403 exactly when it reports
    false. *)
Theorem requireAdmin_agrees_with_check_admin :
  forall env user adminData,
    equalTo_once env "admin" "email" (email user) = inr adminData ->
    (adminData = None \/ exists children, adminData = Some (DObj children)) ->
    exists ra,
      run (Api.check_admin user) env
      = ([CEqualTo "admin" "email" (email user)], inr ra) /\
      ((prop (body ra) "isAdmin" = VBool true /\
        exists ctx,
          run (Api.requireAdmin (Some user)) env
          = ([CEqualTo "admin" "email" (email user)], inr (Next ctx)) /\
          Api.ctx_user ctx = user /\ Api.ctx_isAdmin ctx = true) \/
       (prop (body ra) "isAdmin" = VBool false /\
        prop (body ra) "admin" = VNull /\
        exists r,
          run (Api.requireAdmin (Some user)) env
          = ([CEqualTo "admin" "email" (email user)], inr (Respond r)) /\
          status r = 403)).
Proof.
  intros env user adminData Hquery Hshape.
  eexists. split; [apply (check_admin_run env user adminData Hquery) |].
  rewrite (requireAdmin_run env user adminData Hquery).
  destruct Hshape as [-> | [children ->]].
  - right. split; [reflexivity |]. split; [reflexivity |].
    eexists. split; reflexivity.
  - left. split; [reflexivity |]. eexists. repeat split.
Qed.

Lemma requireAdmin_agrees_with_check_admin_example :
  exists ra,
    run (Api.check_admin example_identity)
        (env_of admin_store [] example_identity)
    = ([CEqualTo "admin" "email" (Some "s@x.com")], inr ra) /\
    ((prop (body ra) "isAdmin" = VBool true /\
      exists ctx,
        run (Api.requireAdmin (Some example_identity))
            (env_of admin_store [] example_identity)
        = ([CEqualTo "admin" "email" (Some "s@x.com")], inr (Next ctx)) /\
        Api.ctx_user ctx = example_identity /\ Api.ctx_isAdmin ctx = true) \/
     (prop (body ra) "isAdmin" = VBool false /\
      prop (body ra) "admin" = VNull /\
      exists r,
        run (Api.requireAdmin (Some example_identity))
            (env_of admin_store [] example_identity)
        = ([CEqualTo "admin" "email" (Some "s@x.com")], inr (Respond r)) /\
        status r = 403)).
Proof.
  apply (requireAdmin_agrees_with_check_admin
           (env_of admin_store [] example_identity) example_identity
           (Some (DObj [("a1", DObj [("email", DStr "s@x.com")])]))).
  - reflexivity.
  - right. eexists. reflexivity.
Defined.

Lemma equalTo_query_first (collection : snapshot) (child v : string) (d : data) :
  equalTo_query collection child v = Some d ->
  exists c k r rest,
    collection = Some c /\ In (k, r) (for_in c) /\
    field r child = Some (DStr v) /\
    d = DObj ((k, r) :: rest).
Proof.
  unfold equalTo_query. destruct collection as [c |]; [| discriminate].
  destruct (filter _ (for_in c)) as [| [k r] kept] eqn:Hf; [discriminate |].
  intros H. injection H as <-.
  assert (Hin : In (k, r)
                  (filter (fun kv : string * data =>
                             strict_eq (field (snd kv) child) (Some v)) (for_in c)))
    by (rewrite Hf; left; reflexivity).
  apply filter_In in Hin. destruct Hin as [Hin Hm]. simpl in Hm.
  apply strict_eq_true in Hm.
  destruct Hm as [[_ H] | [a [Hr Ha]]]; [discriminate |].
  injection Ha as ->.
  exists c, k, r, kept. auto.
Qed.

Lemma equalTo_query_null (collection : snapshot) (child v : string) :
  equalTo_query collection child v = None ->
  forall d k r, collection = Some d -> In (k, r) (for_in d) ->
                field r child <> Some (DStr v).
Proof.
  unfold equalTo_query. intros H d k r -> Hin Hf.
  destruct (filter _ (for_in d)) as [| kv kept] eqn:Hfilter; [| discriminate].
  assert (Hk : In (k, r)
                 (filter (fun kv : string * data =>
                            strict_eq (field (snd kv) child) (Some v)) (for_in d))).
  { apply filter_In. split; [exact Hin |]. simpl. rewrite Hf. simpl.
    apply String.eqb_refl. }
  rewrite Hfilter in Hk. destruct Hk.
Qed.

(** X16.  Over a store that answers, for an identity with an email,
    /api/check-admin reports [isAdmin = true] exactly when some record of
    the admin collection carries that email; the [admin] object it then
    returns is such a record, and it is null when [isAdmin] is false. *)
Theorem check_admin_reports_registry :
  forall env st user e,
    serves env st ->
    email user = Some e ->
    exists r,
      run (Api.check_admin user) env
      = ([CEqualTo "admin" "email" (Some e)], inr r) /\
      status r = 200 /\
      (prop (body r) "isAdmin" = VBool true <->
       exists d k rec, admin st = Some d /\ In (k, rec) (for_in d) /\
                       field rec "email" = Some (DStr e)) /\
      (prop (body r) "isAdmin" = VBool true ->
       exists d k rec, admin st = Some d /\ In (k, rec) (for_in d) /\
                       field rec "email" = Some (DStr e) /\
                       prop (body r) "admin" = of_data rec) /\
      (prop (body r) "isAdmin" = VBool false -> prop (body r) "admin" = VNull).
Proof.
  intros env st user e [_ Hquery] Hemail.
  specialize (Hquery e). rewrite <- Hemail in Hquery.
  eexists. split.
  { rewrite <- Hemail. apply (check_admin_run env user _ Hquery). }
  split; [reflexivity |].
  cbn [body json prop assoc String.eqb Ascii.eqb Bool.eqb].
  destruct (equalTo_query (admin st) "email" e) as [d' |] eqn:Hq.
  - destruct (equalTo_query_first _ _ _ _ Hq) as [c [k [rec [rest [Hc [Hin [Hf ->]]]]]]].
    split; [| split].
    + split; [| reflexivity]. intros _. exists c, k, rec. auto.
    + intros _. exists c, k, rec. repeat split; assumption.
    + discriminate.
  - split; [| split].
    + split; [discriminate |]. intros [d [k [rec [Hd [Hin Hf]]]]].
      elim (equalTo_query_null _ _ _ Hq d k rec Hd Hin Hf).
    + discriminate.
    + reflexivity.
Qed.

Lemma check_admin_reports_registry_example :
  exists r,
    run (Api.check_admin example_identity) (env_of admin_store [] example_identity)
    = ([CEqualTo "admin" "email" (Some "s@x.com")], inr r) /\
    status r = 200 /\
    (prop (body r) "isAdmin" = VBool true <->
     exists d k rec, admin admin_store = Some d /\ In (k, rec) (for_in d) /\
                     field rec "email" = Some (DStr "s@x.com")) /\
    (prop (body r) "isAdmin" = VBool true ->
     exists d k rec, admin admin_store = Some d /\ In (k, rec) (for_in d) /\
                     field rec "email" = Some (DStr "s@x.com") /\
                     prop (body r) "admin" = of_data rec) /\
    (prop (body r) "isAdmin" = VBool false -> prop (body r) "admin" = VNull).
Proof.
  apply (check_admin_reports_registry (env_of admin_store [] example_identity)
           admin_store example_identity "s@x.com").
  - apply env_of_serves.
  - reflexivity.
Defined.

(** ** What role resolution never does *)

(** X17.  Role resolution only reads: whatever the store answers, a run of
    /api/check-roles, /api/check-supplier, /api/check-admin or of a guard
    issues nothing but the read of the supplier collection and the admin
    query on the identity's email, each at most once, and never a call to
    the identity provider. *)
Theorem role_resolution_only_reads :
  forall env user,
    (fst (run (Api.check_roles user) env) = [COnce "fournisseur"] \/
     fst (run (Api.check_roles user) env)
     = [COnce "fournisseur"; CEqualTo "admin" "email" (email user)]) /\
    fst (run (Api.check_supplier user) env) = [COnce "fournisseur"] /\
    fst (run (Api.check_admin user) env)
    = [CEqualTo "admin" "email" (email user)] /\
    fst (run (Api.requireSupplier (Some user)) env) = [COnce "fournisseur"] /\
    fst (run (Api.requireAdmin (Some user)) env)
    = [CEqualTo "admin" "email" (email user)].
Proof.
  intros env user. repeat split.
  - destruct (once_value env "fournisseur") as [e | suppliers] eqn:Hread.
    + left. rewrite (check_roles_run_read_failure env user e Hread). reflexivity.
    + right.
      destruct (equalTo_once env "admin" "email" (email user))
        as [e | adminData] eqn:Hquery.
      * rewrite (check_roles_run_query_failure env user suppliers e Hread Hquery).
        reflexivity.
      * rewrite (check_roles_run env user suppliers adminData Hread Hquery).
        reflexivity.
  - destruct (once_value env "fournisseur") as [e | suppliers] eqn:Hread.
    + rewrite (check_supplier_run_failure env user e Hread). reflexivity.
    + rewrite (check_supplier_run env user suppliers Hread). reflexivity.
  - destruct (equalTo_once env "admin" "email" (email user))
      as [e | adminData] eqn:Hquery.
    + rewrite (check_admin_run_failure env user e Hquery). reflexivity.
    + rewrite (check_admin_run env user adminData Hquery). reflexivity.
  - destruct (once_value env "fournisseur") as [e | suppliers] eqn:Hread.
    + unfold run, Api.requireSupplier, try_catch, bind, await. simpl.
      rewrite Hread. reflexivity.
    + rewrite (requireSupplier_run env user suppliers Hread). reflexivity.
  - destruct (equalTo_once env "admin" "email" (email user))
      as [e | adminData] eqn:Hquery.
    + rewrite (requireAdmin_store_failure env user e Hquery). reflexivity.
    + rewrite (requireAdmin_run env user adminData Hquery). reflexivity.
Qed.

(** X18.  A guard never reports a store failure as a refusal: when the
    read of the supplier collection fails [requireSupplier] answers 500,
    and when the admin query fails [requireAdmin] answers 500; neither
    answers 403 nor calls [next()]. *)
Theorem guards_store_failure :
  forall env user e,
    (once_value env "fournisseur" = inl e ->
     exists r,
       run (Api.requireSupplier (Some user)) env
       = ([COnce "fournisseur"], inr (Respond r)) /\
       status r = 500 /\ status r <> 403) /\
    (equalTo_once env "admin" "email" (email user) = inl e ->
     exists r,
       run (Api.requireAdmin (Some user)) env
       = ([CEqualTo "admin" "email" (email user)], inr (Respond r)) /\
       status r = 500 /\ status r <> 403).
Proof.
  intros env user e. split.
  - intros Hread.
    unfold run, Api.requireSupplier, try_catch, bind, await. simpl.
    rewrite Hread. eexists. split; [reflexivity |].
    split; [reflexivity | discriminate].
  - intros Hquery.
    rewrite (requireAdmin_store_failure env user e Hquery).
    eexists. split; [reflexivity |]. split; [reflexivity | discriminate].
Qed.

Lemma guards_store_failure_example :
  exists r,
    run (Api.requireSupplier (Some example_identity)) (env_down example_identity)
    = ([COnce "fournisseur"], inr (Respond r)) /\
    status r = 500 /\ status r <> 403.
Proof.
  apply (proj1 (guards_store_failure (env_down example_identity) example_identity
                  (Error None "database unavailable"))).
  reflexivity.
Defined.

(** X19.  The two versions of /api/check-supplier and of /api/check-admin
    agree: for the same uid and email and the same answers of the store
    each pair issues the same lookup and reports the same status and the
    same [isSupplier], respectively [isAdmin]. *)
Theorem single_endpoints_versions_agree :
  forall env user,
    (exists log rS rA,
        run (ServerJs.check_supplier (token_of user)) env = (log, inr rS) /\
        run (Api.check_supplier user) env = (log, inr rA) /\
        status rS = status rA /\
        prop (body rS) "isSupplier" = prop (body rA) "isSupplier") /\
    (exists log rS rA,
        run (ServerJs.check_admin (token_of user)) env = (log, inr rS) /\
        run (Api.check_admin user) env = (log, inr rA) /\
        status rS = status rA /\
        prop (body rS) "isAdmin" = prop (body rA) "isAdmin").
Proof.
  intros env user. split.
  - destruct (once_value env "fournisseur") as [e | suppliers] eqn:Hread.
    + exists [COnce "fournisseur"]. eexists. eexists.
      split; [| split; [apply (check_supplier_run_failure env user e Hread) |]].
      * unfold run, ServerJs.check_supplier, try_catch, bind, await. simpl.
        rewrite Hread. reflexivity.
      * split; reflexivity.
    + exists [COnce "fournisseur"].
      exists (json (VObj [("isSupplier",
                           VBool (has_supplier (email user) (uid user) suppliers))])).
      eexists.
      split; [| split; [apply (check_supplier_run env user suppliers Hread) |]].
      * unfold run, ServerJs.check_supplier, try_catch, bind, await. simpl.
        rewrite Hread. destruct suppliers as [d |]; [| reflexivity].
        destruct (truthy (Some d)) eqn:Ht.
        -- rewrite (ServerJs_is_supplier (token_of user) d). reflexivity.
        -- unfold has_supplier. rewrite (falsy_for_in d Ht). reflexivity.
      * split; [reflexivity |].
        rewrite check_supplier_ok_isSupplier, scan_suppliers_fst. reflexivity.
  - destruct (equalTo_once env "admin" "email" (email user))
      as [e | adminData] eqn:Hquery.
    + exists [CEqualTo "admin" "email" (email user)]. eexists. eexists.
      split; [| split; [apply (check_admin_run_failure env user e Hquery) |]].
      * unfold run, ServerJs.check_admin, try_catch, bind, await. simpl.
        rewrite Hquery. reflexivity.
      * split; reflexivity.
    + exists [CEqualTo "admin" "email" (email user)]. eexists. eexists.
      split; [| split; [apply (check_admin_run env user adminData Hquery) |]].
      * unfold run, ServerJs.check_admin, try_catch, bind, await. simpl.
        rewrite Hquery. reflexivity.
      * split; reflexivity.
Qed.
